(** * Nankai-Trough earthquake damage simulator: the estimation core

    A shallow embedding of [NankaiEarthquakeSimulator] from
    [earthquake_app.py] and the properties of its damage model.

    Number model.  A Python [int] is a [Z].  A Python [float] is a real
    number: the arithmetic of the source ([+], [-], [*], [/], [math.sin],
    [math.exp], ...) is read as exact arithmetic on [R], so the theorems
    below speak about the formulas of the model and not about binary64
    rounding.  The conversions between the two worlds ([int(x)],
    [round(x, n)], the [.0f] format) are written out in [Module Py]. *)

From Stdlib Require Import Reals Lra Lia ZArith List String Bool.
From Stdlib Require Import Zfloor DecimalString.
Import ListNotations.

Local Open Scope R_scope.

(** ** Python's numeric primitives *)

Module Py.

(** [int(x)] on a float: truncation toward zero. *)
Definition int (x : R) : Z :=
  if Rle_dec 0 x then Zfloor x else Zceil x.

(** The nearest integer, ties going to the even neighbour: the rule of
    [round] and of the [f] format on floats. *)
Definition round_half_even (x : R) : Z :=
  let f := Zfloor x in
  if Rlt_dec (x - IZR f) (1 / 2) then f
  else if Rlt_dec (1 / 2) (x - IZR f) then (f + 1)%Z
  else if Z.even f then f else (f + 1)%Z.

(** [round(x, ndigits)] for [ndigits >= 0]. *)
Definition round (x : R) (ndigits : nat) : R :=
  IZR (round_half_even (x * 10 ^ ndigits)) / 10 ^ ndigits.

(** [min(a, b)] and [max(a, b)]: the first argument wins unless the
    second is strictly smaller (resp. larger). *)
Definition min (a b : R) : R := if Rlt_dec b a then b else a.
Definition max (a b : R) : R := if Rlt_dec a b then b else a.

(** [math.radians], [math.log10], [math.atan2]. *)
Definition radians (x : R) : R := x * (PI / 180).

Definition log10 (x : R) : R := ln x / ln 10.

Definition atan2 (y x : R) : R :=
  if Rlt_dec 0 x then atan (y / x)
  else if Rlt_dec x 0 then
    (if Rle_dec 0 y then atan (y / x) + PI else atan (y / x) - PI)
  else if Rlt_dec 0 y then PI / 2
  else if Rlt_dec y 0 then - (PI / 2)
  else 0.

(** [f"{x:.0f}"]: the decimal numeral of the nearest integer. *)
Definition format_0f (x : R) : string :=
  NilEmpty.string_of_int (Z.to_int (round_half_even x)).

End Py.

(** ** Data model *)

(** [@dataclass EarthquakeParameters] *)
Record EarthquakeParameters := {
  magnitude : R;
  depth : R;
  epicenter_lat : R;
  epicenter_lon : R
}.

(** [@dataclass RegionData] *)
Record RegionData := {
  name : string;
  lat : R;
  lon : R;
  population : Z;
  buildings : Z;
  wooden_ratio : R;
  coastal : bool;
  elevation : R
}.

(** The simulator object: its only attribute is the region list. *)
Record NankaiEarthquakeSimulator := {
  regions : list RegionData
}.

(** The eight entries of the region catalog. *)
Definition shizuoka : RegionData :=
  Build_RegionData "静岡市" 34.9756 138.3827 700000 280000 0.4 true 20.
Definition hamamatsu : RegionData :=
  Build_RegionData "浜松市" 34.7108 137.7261 800000 320000 0.45 true 10.
Definition nagoya : RegionData :=
  Build_RegionData "名古屋市" 35.1815 136.9066 2300000 920000 0.3 false 15.
Definition tsu : RegionData :=
  Build_RegionData "津市" 34.7185 136.5056 280000 112000 0.5 true 5.
Definition osaka : RegionData :=
  Build_RegionData "大阪市" 34.6937 135.5023 2700000 1080000 0.25 true 5.
Definition wakayama : RegionData :=
  Build_RegionData "和歌山市" 34.2306 135.1708 360000 144000 0.45 true 8.
Definition kochi : RegionData :=
  Build_RegionData "高知市" 33.5597 133.5311 330000 132000 0.5 true 3.
Definition tokushima : RegionData :=
  Build_RegionData "徳島市" 34.0658 134.5594 260000 104000 0.48 true 2.

(** [NankaiEarthquakeSimulator.__init__] *)
Definition init : NankaiEarthquakeSimulator :=
  {| regions := [shizuoka; hamamatsu; nagoya; tsu; osaka; wakayama; kochi;
                 tokushima] |}.

(** ** The model, method by method

    The methods below never read [self]; only [simulate] does, through
    [self.regions]. *)

(** [calculate_distance]: haversine great-circle distance in km. *)
Definition calculate_distance (lat1 lon1 lat2 lon2 : R) : R :=
  let R_ := 6371 in
  let dLat := Py.radians (lat2 - lat1) in
  let dLon := Py.radians (lon2 - lon1) in
  let a := sin (dLat / 2) ^ 2
           + cos (Py.radians lat1) * cos (Py.radians lat2) * sin (dLon / 2) ^ 2 in
  let c := 2 * Py.atan2 (sqrt a) (sqrt (1 - a)) in
  R_ * c.

(** [calculate_seismic_intensity] *)
Definition calculate_seismic_intensity
    (earthquake : EarthquakeParameters) (region : RegionData) : R :=
  let distance := calculate_distance
                    (epicenter_lat earthquake) (epicenter_lon earthquake)
                    (lat region) (lon region) in
  let distance := if Rlt_dec distance 1 then 1 else distance in
  let intensity := magnitude earthquake - 3.5 * Py.log10 distance
                   - 0.006 * distance + 1.5 in
  let depth_factor := 1 - (depth earthquake / 100) * 0.3 in
  let intensity := intensity * depth_factor in
  Py.min 7 (Py.max 0 intensity).

(** The dict returned by [estimate_building_damage]; the fields are the keys
    全壊, 半壊, 一部損壊 and 被害なし, under the names of the locals that
    fill them. *)
Record BuildingDamage := {
  collapsed : Z;
  severe_damage : Z;
  moderate_damage : Z;
  undamaged : Z
}.

(** The tier ladder of [estimate_building_damage]:
    [(collapse_rate, severe_rate)]. *)
Definition damage_rates (intensity : R) (region : RegionData) : R * R :=
  let w := wooden_ratio region in
  if Rge_dec intensity 7 then
    (0.3 * w + 0.05 * (1 - w), 0.4 * w + 0.15 * (1 - w))
  else if Rge_dec intensity 6.5 then
    (0.15 * w + 0.02 * (1 - w), 0.3 * w + 0.1 * (1 - w))
  else if Rge_dec intensity 6 then
    (0.05 * w + 0.005 * (1 - w), 0.15 * w + 0.05 * (1 - w))
  else if Rge_dec intensity 5.5 then
    (0.01 * w, 0.05 * w + 0.01 * (1 - w))
  else
    (0, if Rge_dec intensity 5 then 0.01 * w else 0).

(** [estimate_building_damage] *)
Definition estimate_building_damage
    (intensity : R) (region : RegionData) : BuildingDamage :=
  let '(collapse_rate, severe_rate) := damage_rates intensity region in
  let collapsed := Py.int (IZR (buildings region) * collapse_rate) in
  let severe_damage := Py.int (IZR (buildings region) * severe_rate) in
  let moderate_damage := Py.int (IZR (buildings region) * severe_rate * 0.5) in
  {| collapsed := collapsed;
     severe_damage := severe_damage;
     moderate_damage := moderate_damage;
     undamaged :=
       (buildings region - collapsed - severe_damage - moderate_damage)%Z |}.

(** The dict returned by [estimate_tsunami]; keys 津波高, 到達時間 and
    浸水面積率. *)
Record Tsunami := {
  tsunami_height : R;
  arrival_time : R;
  inundation_rate : R
}.

(** The magnitude tiers of [estimate_tsunami]. *)
Definition base_height (earthquake : EarthquakeParameters) : R :=
  if Rge_dec (magnitude earthquake) 8.0 then 10
  else if Rge_dec (magnitude earthquake) 7.5 then 5
  else 2.

(** [estimate_tsunami] *)
Definition estimate_tsunami
    (earthquake : EarthquakeParameters) (region : RegionData) : Tsunami :=
  if negb (coastal region) then
    {| tsunami_height := 0; arrival_time := 0; inundation_rate := 0 |}
  else
    let distance := calculate_distance
                      (epicenter_lat earthquake) (epicenter_lon earthquake)
                      (lat region) (lon region) in
    let base_height := base_height earthquake in
    let tsunami_height := base_height * exp (- distance / 500) in
    let tsunami_height :=
      if Rgt_dec (elevation region) tsunami_height then 0 else tsunami_height in
    let arrival_time := distance / 12 in
    let inundation_rate :=
      if Rgt_dec tsunami_height 5 then 0.3
      else if Rgt_dec tsunami_height 2 then 0.15
      else if Rgt_dec tsunami_height 0 then 0.05
      else 0 in
    {| tsunami_height := Py.round tsunami_height 1;
       arrival_time := Py.round arrival_time 0;
       inundation_rate := inundation_rate |}.

(** The dict returned by [estimate_casualties]; keys 死者, 重傷者, 軽傷者. *)
Record Casualties := {
  deaths : Z;
  serious_injuries : Z;
  minor_injuries : Z
}.

(** The tsunami branch of [estimate_casualties]:
    [(tsunami_deaths, tsunami_injuries)]. *)
Definition tsunami_casualties (tsunami : Tsunami) (region : RegionData) : Z * Z :=
  if Rgt_dec (tsunami_height tsunami) 0 then
    let affected_population :=
      Py.int (IZR (population region) * inundation_rate tsunami) in
    let evacuation_rate := Py.min 0.8 (arrival_time tsunami / 60) in
    let non_evacuated := IZR affected_population * (1 - evacuation_rate) in
    let tsunami_deaths :=
      Py.int (if Rgt_dec (tsunami_height tsunami) 2
              then non_evacuated * 0.1 else non_evacuated * 0.02) in
    let tsunami_injuries := Py.int (non_evacuated * 0.2) in
    (tsunami_deaths, tsunami_injuries)
  else
    (0%Z, 0%Z).

(** [estimate_casualties] *)
Definition estimate_casualties
    (intensity : R) (building_damage : BuildingDamage)
    (tsunami : Tsunami) (region : RegionData) : Casualties :=
  let building_deaths := Py.int (IZR (collapsed building_damage) * 0.01) in
  let building_injuries :=
    Py.int (IZR (collapsed building_damage + severe_damage building_damage)
            * 0.05) in
  let '(tsunami_deaths, tsunami_injuries) := tsunami_casualties tsunami region in
  {| deaths := (building_deaths + tsunami_deaths)%Z;
     serious_injuries :=
       Py.int (IZR (building_injuries + tsunami_injuries) * 0.3);
     minor_injuries :=
       Py.int (IZR (building_injuries + tsunami_injuries) * 0.7) |}.

(** The dict returned by [estimate_infrastructure_damage]; keys 停電率,
    断水率, ガス供給停止率. *)
Record Infrastructure := {
  electricity_outage : R;
  water_outage : R;
  gas_outage : R
}.

(** [estimate_infrastructure_damage] *)
Definition estimate_infrastructure_damage
    (intensity : R) (region : RegionData) : Infrastructure :=
  if Rge_dec intensity 6.5 then
    {| electricity_outage := 0.8; water_outage := 0.9; gas_outage := 0.85 |}
  else if Rge_dec intensity 6 then
    {| electricity_outage := 0.5; water_outage := 0.6; gas_outage := 0.55 |}
  else if Rge_dec intensity 5.5 then
    {| electricity_outage := 0.2; water_outage := 0.3; gas_outage := 0.25 |}
  else
    {| electricity_outage := if Rge_dec intensity 5 then 0.05 else 0;
       water_outage := if Rge_dec intensity 5 then 0.05 else 0;
       gas_outage := if Rge_dec intensity 5 then 0.05 else 0 |}.

(** One row of the result table; the columns are 地域, 推定震度, 全壊建物,
    半壊建物, 津波高(m), 津波到達時間(分), 死者, 負傷者, 停電世帯率,
    断水世帯率 and 経済被害(億円), in this order. *)
Record Row := {
  row_region : string;
  row_intensity : R;
  row_collapsed : Z;
  row_severe : Z;
  row_tsunami_height : R;
  row_arrival_time : R;
  row_deaths : Z;
  row_injured : Z;
  row_electricity : string;
  row_water : string;
  row_economic_loss : R
}.

(** The body of the loop of [simulate]: the row appended for one region. *)
Definition simulate_region
    (earthquake : EarthquakeParameters) (region : RegionData) : Row :=
  let intensity := calculate_seismic_intensity earthquake region in
  let building_damage := estimate_building_damage intensity region in
  let tsunami := estimate_tsunami earthquake region in
  let casualties :=
    estimate_casualties intensity building_damage tsunami region in
  let infrastructure := estimate_infrastructure_damage intensity region in
  let economic_loss :=
    IZR (collapsed building_damage * 20000000
         + severe_damage building_damage * 10000000
         + moderate_damage building_damage * 2000000) / 100000000 in
  {| row_region := name region;
     row_intensity := Py.round intensity 1;
     row_collapsed := collapsed building_damage;
     row_severe := severe_damage building_damage;
     row_tsunami_height := tsunami_height tsunami;
     row_arrival_time := arrival_time tsunami;
     row_deaths := deaths casualties;
     row_injured :=
       (serious_injuries casualties + minor_injuries casualties)%Z;
     row_electricity :=
       Py.format_0f (electricity_outage infrastructure * 100) ++ "%";
     row_water := Py.format_0f (water_outage infrastructure * 100) ++ "%";
     row_economic_loss := Py.round economic_loss 0 |}.

(** ** Methods as state transformers

    A method call takes the simulator object and gives back its result and
    the object as the call left it: whatever a method kept between calls
    would have to live there. *)

Definition Method (A : Type) : Type :=
  NankaiEarthquakeSimulator -> A * NankaiEarthquakeSimulator.

Definition ret {A : Type} (a : A) : Method A := fun self => (a, self).

Definition bind {A B : Type} (m : Method A) (k : A -> Method B) : Method B :=
  fun self => let '(a, self') := m self in k a self'.

Notation "x <- m ;; k" := (bind m (fun x => k))
  (at level 61, m at next level, right associativity).

(** Reading the attribute [self.regions]. *)
Definition self_regions : Method (list RegionData) :=
  fun self => (regions self, self).

(** [simulate]: the rows are appended in the order of [self.regions]. *)
Definition simulate (earthquake : EarthquakeParameters) : Method (list Row) :=
  rs <- self_regions ;;
  ret (fold_left
         (fun results region => results ++ [simulate_region earthquake region])
         rs []).

(** The haversine term [a] of [calculate_distance]. *)
Definition haversine_term (lat1 lon1 lat2 lon2 : R) : R :=
  sin (Py.radians (lat2 - lat1) / 2) ^ 2
  + cos (Py.radians lat1) * cos (Py.radians lat2)
    * sin (Py.radians (lon2 - lon1) / 2) ^ 2.

(** ** The dashboard: what [main] computes from the table

    [main] is Streamlit layout around a few computations on the table that
    [simulate] returned; those are modelled here, the widgets are not. *)

(** [results[col].sum()], the total behind each headline metric. *)
Definition column_sum (col : Row -> Z) (results : list Row) : Z :=
  fold_right (fun row total => (col row + total)%Z) 0%Z results.

(** [results[results["津波高(m)"] > 0]], the rows charted on the tsunami tab;
    when none is left the tab shows a notice instead of the chart. *)
Definition tsunami_data (results : list Row) : list Row :=
  filter (fun row => if Rgt_dec (row_tsunami_height row) 0 then true else false)
         results.

(** ** Quantities the properties are stated with *)

(** The distance both [calculate_seismic_intensity] and [estimate_tsunami]
    compute first: from the epicenter to the region. *)
Definition epicentral_distance
    (earthquake : EarthquakeParameters) (region : RegionData) : R :=
  calculate_distance (epicenter_lat earthquake) (epicenter_lon earthquake)
                     (lat region) (lon region).

(** The wave height of [estimate_tsunami] before the elevation check and
    before rounding: [base_height * exp(-distance / 500)]. *)
Definition raw_wave_height
    (earthquake : EarthquakeParameters) (region : RegionData) : R :=
  base_height earthquake * exp (- epicentral_distance earthquake region / 500).

(** The result of [estimate_tsunami] for a region that is not coastal. *)
Definition zero_tsunami : Tsunami :=
  {| tsunami_height := 0; arrival_time := 0; inundation_rate := 0 |}.

(** The tsunami-casualty formula in the words of the specification, for a
    given arrival time in minutes:
    affected = population x inundation fraction,
    evacuation rate = min(0.8, arrival_min / 60),
    non-evacuated = affected x (1 - evacuation rate),
    deaths = non-evacuated x (0.1 if height > 2 else 0.02),
    injuries = non-evacuated x 0.2,
    truncated toward zero where the source converts to [int]. *)
Definition tsunami_casualty_formula
    (arrival_min : R) (tsunami : Tsunami) (region : RegionData) : Z * Z :=
  let affected := Py.int (IZR (population region) * inundation_rate tsunami) in
  let evacuation_rate := Rmin 0.8 (arrival_min / 60) in
  let non_evacuated := IZR affected * (1 - evacuation_rate) in
  let death_rate := if Rgt_dec (tsunami_height tsunami) 2 then 0.1 else 0.02 in
  (Py.int (non_evacuated * death_rate), Py.int (non_evacuated * 0.2)).

(** ** Sample inputs *)

(** A magnitude-8 earthquake a hundredth of a degree south of a coastal town
    at sea level. *)
Definition offshore_quake : EarthquakeParameters :=
  Build_EarthquakeParameters 8.0 10 33 135.

Definition seaside_town : RegionData :=
  Build_RegionData "seaside" 33.01 135 1000000 400000 0.5 true 0.

(** Earthquakes right under 静岡市 and a hundredth of a degree south of it. *)
Definition quake_at_shizuoka : EarthquakeParameters :=
  Build_EarthquakeParameters 8.0 10 34.9756 138.3827.

Definition quake_near_shizuoka : EarthquakeParameters :=
  Build_EarthquakeParameters 8.0 10 34.9656 138.3827.

(** ** Facts about the numeric primitives *)

Module PyFacts.

Lemma int_nonneg (x : R) : 0 <= x -> (0 <= Py.int x)%Z.
Proof.
  intros Hx. unfold Py.int.
  destruct (Rle_dec 0 x) as [_ | n]; [| contradiction].
  apply Zfloor_lub. exact Hx.
Qed.

Lemma int_below (x : R) : 0 <= x -> IZR (Py.int x) <= x.
Proof.
  intros Hx. unfold Py.int.
  destruct (Rle_dec 0 x) as [_ | n]; [| contradiction].
  apply (Zfloor_bound x).
Qed.

Lemma int_IZR (z : Z) : Py.int (IZR z) = z.
Proof.
  unfold Py.int. destruct (Rle_dec 0 (IZR z)).
  - apply ZfloorZ.
  - unfold Zceil. rewrite ZfloorNZ. lia.
Qed.

Lemma int_0 : Py.int 0 = 0%Z.
Proof. exact (int_IZR 0). Qed.

(** Truncation toward zero is odd. *)
Lemma int_opp (x : R) : Py.int (- x) = (- Py.int x)%Z.
Proof.
  unfold Py.int, Zceil.
  destruct (Rle_dec 0 (- x)) as [Hn | Hn], (Rle_dec 0 x) as [Hp | Hp].
  - assert (x = 0) by lra. subst x. rewrite Ropp_0, (ZfloorZ 0). reflexivity.
  - lia.
  - rewrite Ropp_involutive. reflexivity.
  - exfalso. lra.
Qed.

(** Halving commutes with the floor of a non-negative number. *)
Lemma Zfloor_half (x : R) :
  0 <= x -> Zfloor (x * 0.5) = Zfloor (0.5 * IZR (Zfloor x)).
Proof.
  intros Hx.
  destruct (Zfloor_bound x) as [Hlo Hhi].
  set (n := Zfloor x) in *.
  destruct (Zfloor_bound (0.5 * IZR n)) as [Klo Khi].
  set (k := Zfloor (0.5 * IZR n)) in *.
  assert (Hk : (2 * k <= n < 2 * k + 2)%Z).
  { split.
    - apply le_IZR. rewrite mult_IZR. lra.
    - apply lt_IZR. rewrite plus_IZR, mult_IZR. lra. }
  assert (Hn : IZR n + 1 <= 2 * IZR k + 2).
  { replace (IZR n + 1) with (IZR (n + 1)) by (rewrite plus_IZR; reflexivity).
    replace (2 * IZR k + 2) with (IZR (2 * k + 2))
      by (rewrite plus_IZR, mult_IZR; reflexivity).
    apply IZR_le. lia. }
  apply Zfloor_eq. lra.
Qed.

(** [int(x * 0.5) == int(0.5 * int(x))] for every [x]. *)
Lemma int_half (x : R) : Py.int (x * 0.5) = Py.int (0.5 * IZR (Py.int x)).
Proof.
  assert (Hpos : forall y, 0 <= y ->
                   Py.int (y * 0.5) = Py.int (0.5 * IZR (Py.int y))).
  { intros y Hy.
    assert (Hf : (0 <= Zfloor y)%Z) by (apply Zfloor_lub; exact Hy).
    apply IZR_le in Hf.
    unfold Py.int.
    destruct (Rle_dec 0 y) as [_ | n]; [| contradiction].
    destruct (Rle_dec 0 (y * 0.5)) as [_ | n]; [| exfalso; lra].
    destruct (Rle_dec 0 (0.5 * IZR (Zfloor y))) as [_ | n]; [| exfalso; lra].
    apply Zfloor_half. exact Hy. }
  destruct (Rle_dec 0 x) as [Hx | Hx].
  - apply Hpos. exact Hx.
  - assert (Hy : 0 <= - x) by lra.
    specialize (Hpos (- x) Hy).
    rewrite int_opp in Hpos.
    replace (- x * 0.5) with (- (x * 0.5)) in Hpos by lra.
    rewrite int_opp, opp_IZR in Hpos.
    replace (0.5 * - IZR (Py.int x)) with (- (0.5 * IZR (Py.int x))) in Hpos
      by lra.
    rewrite int_opp in Hpos. lia.
Qed.

Lemma min_Rmin (a b : R) : Py.min a b = Rmin a b.
Proof.
  unfold Py.min, Rmin.
  destruct (Rlt_dec b a), (Rle_dec a b); lra.
Qed.

(** A number within a half of an integer rounds to it. *)
Lemma round_half_even_near (z : Z) (x : R) :
  IZR z - 1 / 2 < x < IZR z + 1 / 2 -> Py.round_half_even x = z.
Proof.
  intros Hx. unfold Py.round_half_even.
  destruct (Rle_lt_dec (IZR z) x) as [Hge | Hlt].
  - rewrite (Zfloor_eq z x) by lra.
    destruct (Rlt_dec (x - IZR z) (1 / 2)); [reflexivity | exfalso; lra].
  - rewrite (Zfloor_eq (z - 1) x) by (rewrite minus_IZR; lra).
    rewrite minus_IZR.
    destruct (Rlt_dec (x - (IZR z - 1)) (1 / 2)); [exfalso; lra |].
    destruct (Rlt_dec (1 / 2) (x - (IZR z - 1))); [lia | exfalso; lra].
Qed.

Lemma round_half_even_IZR (z : Z) : Py.round_half_even (IZR z) = z.
Proof. apply round_half_even_near. lra. Qed.

(** Everything in [[0, 1/2]] rounds to 0: the tie at one half goes to the
    even neighbour. *)
Lemma round_half_even_le_half (x : R) :
  0 <= x <= 1 / 2 -> Py.round_half_even x = 0%Z.
Proof.
  intros [H0 [Hlt | Heq]].
  - apply round_half_even_near. lra.
  - subst x. unfold Py.round_half_even.
    rewrite (Zfloor_eq 0 (1 / 2)) by lra.
    destruct (Rlt_dec (1 / 2 - 0) (1 / 2)); [exfalso; lra |].
    destruct (Rlt_dec (1 / 2) (1 / 2 - 0)); [exfalso; lra | reflexivity].
Qed.

(** Everything above one half rounds to 1 or more. *)
Lemma round_half_even_gt_half (x : R) :
  1 / 2 < x -> (1 <= Py.round_half_even x)%Z.
Proof.
  intros Hx.
  destruct (Zfloor_bound x) as [Hlo Hhi].
  assert (H0 : (0 <= Zfloor x)%Z) by (apply Zfloor_lub; lra).
  unfold Py.round_half_even.
  assert (Hf : x - IZR (Zfloor x) <= 1 / 2 -> (1 <= Zfloor x)%Z).
  { intros H. assert (0 < Zfloor x)%Z; [apply lt_IZR; lra | lia]. }
  destruct (Rlt_dec (x - IZR (Zfloor x)) (1 / 2)).
  - apply Hf. lra.
  - destruct (Rlt_dec (1 / 2) (x - IZR (Zfloor x))).
    + lia.
    + destruct (Z.even (Zfloor x)); [apply Hf; lra | lia].
Qed.

Lemma round_0_digits (x : R) : Py.round x 0 = IZR (Py.round_half_even x).
Proof.
  unfold Py.round. rewrite pow_O, Rmult_1_r. field.
Qed.

Lemma round_of_0 (ndigits : nat) : Py.round 0 ndigits = 0.
Proof.
  unfold Py.round. rewrite Rmult_0_l, (round_half_even_IZR 0).
  unfold Rdiv. apply Rmult_0_l.
Qed.

Lemma min_max_range (lo hi x : R) :
  lo <= hi -> lo <= Py.min hi (Py.max lo x) <= hi.
Proof.
  intros H. unfold Py.min, Py.max.
  destruct (Rlt_dec lo x); destruct (Rlt_dec _ hi); lra.
Qed.

Lemma min_max_mono (lo hi x y : R) :
  x <= y -> Py.min hi (Py.max lo x) <= Py.min hi (Py.max lo y).
Proof.
  intros H. unfold Py.min, Py.max.
  destruct (Rlt_dec lo x); destruct (Rlt_dec lo y);
    repeat match goal with |- context [Rlt_dec ?a ?b] =>
             destruct (Rlt_dec a b) end; lra.
Qed.

End PyFacts.

(** ** Building damage *)

(** The rates of every tier are non-negative and leave room for the three
    damage classes: [collapse_rate + 1.5 * severe_rate <= 1]. *)
Lemma damage_rates_bounds (intensity : R) (region : RegionData) :
  0 <= wooden_ratio region <= 1 ->
  0 <= fst (damage_rates intensity region)
  /\ 0 <= snd (damage_rates intensity region)
  /\ fst (damage_rates intensity region)
     + snd (damage_rates intensity region)
     + snd (damage_rates intensity region) * 0.5 <= 1.
Proof.
  intros Hw. unfold damage_rates.
  repeat match goal with |- context [Rge_dec ?a ?b] =>
           destruct (Rge_dec a b) end;
    cbn [fst snd]; lra.
Qed.

(** C1: for a region with [buildings >= 0] and [wooden_ratio] in [[0,1]],
    and any intensity, [estimate_building_damage] returns four non-negative
    counts whose sum is exactly the region's building count. *)
Theorem building_damage_partition (intensity : R) (region : RegionData) :
  (0 <= buildings region)%Z ->
  0 <= wooden_ratio region <= 1 ->
  let d := estimate_building_damage intensity region in
  (0 <= collapsed d /\ 0 <= severe_damage d /\ 0 <= moderate_damage d
   /\ 0 <= undamaged d
   /\ collapsed d + severe_damage d + moderate_damage d + undamaged d
      = buildings region)%Z.
Proof.
  intros Hb Hw.
  destruct (damage_rates_bounds intensity region Hw) as (Hc & Hs & Hsum).
  unfold estimate_building_damage.
  destruct (damage_rates intensity region) as [collapse_rate severe_rate].
  cbn [fst snd] in Hc, Hs, Hsum. cbn.
  apply IZR_le in Hb.
  set (b := IZR (buildings region)) in *.
  assert (Hxc : 0 <= b * collapse_rate) by nra.
  assert (Hxs : 0 <= b * severe_rate) by nra.
  assert (Hxm : 0 <= b * severe_rate * 0.5) by nra.
  pose proof (PyFacts.int_nonneg _ Hxc) as Nc.
  pose proof (PyFacts.int_nonneg _ Hxs) as Ns.
  pose proof (PyFacts.int_nonneg _ Hxm) as Nm.
  pose proof (PyFacts.int_below _ Hxc) as Bc.
  pose proof (PyFacts.int_below _ Hxs) as Bs.
  pose proof (PyFacts.int_below _ Hxm) as Bm.
  assert (Htot : (Py.int (b * collapse_rate) + Py.int (b * severe_rate)
                  + Py.int (b * severe_rate * 0.5) <= buildings region)%Z).
  { apply le_IZR. rewrite !plus_IZR. fold b. nra. }
  repeat split; lia.
Qed.

Lemma building_damage_partition_witness :
  let d := estimate_building_damage 7 kochi in
  (0 <= collapsed d /\ 0 <= severe_damage d /\ 0 <= moderate_damage d
   /\ 0 <= undamaged d
   /\ collapsed d + severe_damage d + moderate_damage d + undamaged d
      = buildings kochi)%Z.
Proof.
  apply (building_damage_partition 7 kochi).
  - simpl. lia.
  - simpl. lra.
Defined.

(** C4: the moderate-damage count is half the returned severe-damage count,
    truncated toward zero: [moderate == int(0.5 * severe)]. *)
Theorem moderate_is_half_severe (intensity : R) (region : RegionData) :
  let d := estimate_building_damage intensity region in
  moderate_damage d = Py.int (0.5 * IZR (severe_damage d)).
Proof.
  unfold estimate_building_damage.
  destruct (damage_rates intensity region) as [collapse_rate severe_rate].
  cbn. apply PyFacts.int_half.
Qed.

(** ** Seismic intensity *)

(** The clamp alone bounds the result, whatever the inputs. *)
Lemma intensity_clamped (earthquake : EarthquakeParameters) (region : RegionData) :
  0 <= calculate_seismic_intensity earthquake region <= 7.
Proof.
  unfold calculate_seismic_intensity. cbv zeta.
  apply PyFacts.min_max_range. lra.
Qed.

(** C2: for parameters in the ranges of the input widgets (magnitude in
    [[7,9]], depth in [[5,50]], latitude in [[30,36]], longitude in
    [[130,140]]) and every region, the intensity lies in [[0,7]]. *)
Theorem intensity_in_range (earthquake : EarthquakeParameters) (region : RegionData) :
  7.0 <= magnitude earthquake <= 9.0 ->
  5 <= depth earthquake <= 50 ->
  30 <= epicenter_lat earthquake <= 36 ->
  130 <= epicenter_lon earthquake <= 140 ->
  0 <= calculate_seismic_intensity earthquake region <= 7.
Proof.
  intros _ _ _ _. apply intensity_clamped.
Qed.

Lemma intensity_in_range_witness :
  0 <= calculate_seismic_intensity (Build_EarthquakeParameters 8.7 10 33 136) kochi
    <= 7.
Proof.
  apply (intensity_in_range (Build_EarthquakeParameters 8.7 10 33 136) kochi);
    simpl; lra.
Defined.

(** C5: with the region, the epicenter and a depth in [[5,50]] fixed, the
    intensity is non-decreasing in the magnitude. *)
Theorem intensity_monotone_in_magnitude
    (region : RegionData) (d la lo m1 m2 : R) :
  5 <= d <= 50 ->
  m1 <= m2 ->
  calculate_seismic_intensity (Build_EarthquakeParameters m1 d la lo) region
  <= calculate_seismic_intensity (Build_EarthquakeParameters m2 d la lo) region.
Proof.
  intros Hd Hm.
  unfold calculate_seismic_intensity. cbn [magnitude depth epicenter_lat epicenter_lon].
  cbv zeta.
  set (dist := if Rlt_dec _ 1 then 1 else _).
  apply PyFacts.min_max_mono.
  apply Rmult_le_compat_r; lra.
Qed.

Lemma intensity_monotone_in_magnitude_witness :
  calculate_seismic_intensity (Build_EarthquakeParameters 7.0 10 33 136) kochi
  <= calculate_seismic_intensity (Build_EarthquakeParameters 8.7 10 33 136) kochi.
Proof.
  apply (intensity_monotone_in_magnitude kochi 10 33 136 7.0 8.7); lra.
Defined.

(** ** Great-circle distance *)

Lemma calculate_distance_unfold (lat1 lon1 lat2 lon2 : R) :
  calculate_distance lat1 lon1 lat2 lon2
  = 6371 * (2 * Py.atan2 (sqrt (haversine_term lat1 lon1 lat2 lon2))
                         (sqrt (1 - haversine_term lat1 lon1 lat2 lon2))).
Proof. reflexivity. Qed.



Lemma atan2_nonneg (y x : R) : 0 <= y -> 0 <= x -> 0 <= Py.atan2 y x.
Proof.
  intros Hy Hx. unfold Py.atan2.
  destruct (Rlt_dec 0 x) as [Hpos | _].
  - rewrite <- atan_0.
    destruct (Req_dec y 0) as [-> | Hne].
    + unfold Rdiv. rewrite Rmult_0_l. lra.
    + left. apply atan_increasing. apply Rdiv_lt_0_compat; lra.
  - destruct (Rlt_dec x 0) as [Hneg | _]; [exfalso; lra |].
    destruct (Rlt_dec 0 y) as [_ | _].
    + pose proof PI_RGT_0. lra.
    + destruct (Rlt_dec y 0) as [Hneg | _]; [exfalso; lra | lra].
Qed.

Lemma calculate_distance_nonneg (lat1 lon1 lat2 lon2 : R) :
  0 <= calculate_distance lat1 lon1 lat2 lon2.
Proof.
  rewrite calculate_distance_unfold.
  pose proof (atan2_nonneg _ _
                (sqrt_pos (haversine_term lat1 lon1 lat2 lon2))
                (sqrt_pos (1 - haversine_term lat1 lon1 lat2 lon2))).
  lra.
Qed.

Lemma haversine_term_sym (lat1 lon1 lat2 lon2 : R) :
  haversine_term lat1 lon1 lat2 lon2 = haversine_term lat2 lon2 lat1 lon1.
Proof.
  unfold haversine_term.
  replace (Py.radians (lat1 - lat2) / 2)
    with (- (Py.radians (lat2 - lat1) / 2)) by (unfold Py.radians; field).
  replace (Py.radians (lon1 - lon2) / 2)
    with (- (Py.radians (lon2 - lon1) / 2)) by (unfold Py.radians; field).
  rewrite !sin_neg. ring.
Qed.

Lemma haversine_term_diag (lat0 lon0 : R) : haversine_term lat0 lon0 lat0 lon0 = 0.
Proof.
  unfold haversine_term, Py.radians.
  replace ((lat0 - lat0) * (PI / 180) / 2) with 0 by field.
  replace ((lon0 - lon0) * (PI / 180) / 2) with 0 by field.
  rewrite sin_0. ring.
Qed.

Lemma calculate_distance_diag (lat0 lon0 : R) :
  calculate_distance lat0 lon0 lat0 lon0 = 0.
Proof.
  rewrite calculate_distance_unfold, haversine_term_diag.
  rewrite Rminus_0_r, sqrt_0, sqrt_1.
  unfold Py.atan2.
  destruct (Rlt_dec 0 1) as [_ | n]; [| exfalso; lra].
  unfold Rdiv. rewrite Rmult_0_l, atan_0. ring.
Qed.

(** C9: [calculate_distance] is symmetric in its two points, and the
    distance from a point to itself is 0. *)
Theorem calculate_distance_symmetric :
  (forall lat1 lon1 lat2 lon2 : R,
     calculate_distance lat1 lon1 lat2 lon2
     = calculate_distance lat2 lon2 lat1 lon1)
  /\ (forall lat0 lon0 : R, calculate_distance lat0 lon0 lat0 lon0 = 0).
Proof.
  split.
  - intros. rewrite !calculate_distance_unfold.
    rewrite (haversine_term_sym lat1 lon1 lat2 lon2). reflexivity.
  - exact calculate_distance_diag.
Qed.

(** Along a meridian the haversine formula gives the arc itself: for two
    points of equal longitude, the second less than 180 degrees north of the
    first, the distance is [6371 * radians(lat2 - lat1)]. *)
Lemma calculate_distance_meridian (lat1 lat2 lon0 : R) :
  0 <= lat2 - lat1 < 180 ->
  calculate_distance lat1 lon0 lat2 lon0 = 6371 * Py.radians (lat2 - lat1).
Proof.
  intros Hl.
  rewrite calculate_distance_unfold. unfold haversine_term.
  set (x := Py.radians (lat2 - lat1) / 2).
  assert (Hx : 0 <= x < PI / 2).
  { unfold x, Py.radians. pose proof PI_RGT_0. split.
    - apply Rmult_le_pos; [| lra].
      apply Rmult_le_pos; lra.
    - nra. }
  replace (Py.radians (lon0 - lon0) / 2) with 0
    by (unfold Py.radians; field).
  rewrite sin_0.
  replace (sin x ^ 2 + cos (Py.radians lat1) * cos (Py.radians lat2) * 0 ^ 2)
    with (Rsqr (sin x)) by (unfold Rsqr; ring).
  replace (1 - Rsqr (sin x)) with (Rsqr (cos x))
    by (pose proof (sin2_cos2 x); lra).
  assert (Hs : 0 <= sin x) by (apply sin_ge_0; lra).
  assert (Hc : 0 < cos x) by (apply cos_gt_0; lra).
  rewrite !sqrt_Rsqr by lra.
  unfold Py.atan2.
  destruct (Rlt_dec 0 (cos x)) as [_ | n]; [| contradiction].
  fold (tan x). rewrite atan_tan by lra.
  unfold x. field.
Qed.

(** ** Tsunami *)

Lemma epicentral_distance_nonneg (earthquake : EarthquakeParameters) (region : RegionData) :
  0 <= epicentral_distance earthquake region.
Proof. apply calculate_distance_nonneg. Qed.

Lemma base_height_range (earthquake : EarthquakeParameters) :
  2 <= base_height earthquake <= 10.
Proof.
  unfold base_height.
  destruct (Rge_dec (magnitude earthquake) 8.0);
    [| destruct (Rge_dec (magnitude earthquake) 7.5)]; lra.
Qed.

Lemma raw_wave_height_range (earthquake : EarthquakeParameters) (region : RegionData) :
  0 < raw_wave_height earthquake region <= 10.
Proof.
  unfold raw_wave_height.
  pose proof (base_height_range earthquake) as Hb.
  pose proof (epicentral_distance_nonneg earthquake region) as Hd.
  set (x := - epicentral_distance earthquake region / 500).
  pose proof (exp_pos x) as Hp.
  assert (Hx : exp x <= 1).
  { rewrite <- exp_0. destruct (Req_dec x 0) as [-> | Hne]; [lra |].
    left. apply exp_increasing. unfold x in *. lra. }
  split; [apply Rmult_lt_0_compat; lra | nra].
Qed.

(** What [estimate_tsunami] returns for a coastal region, in terms of the
    raw wave height and the epicentral distance. *)
Lemma estimate_tsunami_coastal (earthquake : EarthquakeParameters) (region : RegionData) :
  coastal region = true ->
  estimate_tsunami earthquake region
  = let h := if Rgt_dec (elevation region) (raw_wave_height earthquake region)
             then 0 else raw_wave_height earthquake region in
    {| tsunami_height := Py.round h 1;
       arrival_time := Py.round (epicentral_distance earthquake region / 12) 0;
       inundation_rate :=
         if Rgt_dec h 5 then 0.3
         else if Rgt_dec h 2 then 0.15
         else if Rgt_dec h 0 then 0.05
         else 0 |}.
Proof.
  intros Hc. unfold estimate_tsunami. rewrite Hc. reflexivity.
Qed.

Lemma estimate_tsunami_inland (earthquake : EarthquakeParameters) (region : RegionData) :
  coastal region = false -> estimate_tsunami earthquake region = zero_tsunami.
Proof.
  intros Hc. unfold estimate_tsunami. rewrite Hc. reflexivity.
Qed.

(** C7: for a coastal region whose elevation strictly exceeds the raw wave
    height [base_height * exp(-distance/500)], the returned tsunami height is
    exactly 0, and so is the inundation fraction. *)
Theorem elevation_protects (earthquake : EarthquakeParameters) (region : RegionData) :
  coastal region = true ->
  elevation region > raw_wave_height earthquake region ->
  tsunami_height (estimate_tsunami earthquake region) = 0
  /\ inundation_rate (estimate_tsunami earthquake region) = 0.
Proof.
  intros Hc He.
  rewrite (estimate_tsunami_coastal earthquake region Hc). cbv zeta.
  destruct (Rgt_dec (elevation region) (raw_wave_height earthquake region))
    as [_ | n]; [| contradiction].
  cbn [tsunami_height inundation_rate].
  split.
  - apply PyFacts.round_of_0.
  - destruct (Rgt_dec 0 5); [exfalso; lra |].
    destruct (Rgt_dec 0 2); [exfalso; lra |].
    destruct (Rgt_dec 0 0); [exfalso; lra | reflexivity].
Qed.

Lemma shizuoka_above_wave (earthquake : EarthquakeParameters) :
  elevation shizuoka > raw_wave_height earthquake shizuoka.
Proof.
  pose proof (raw_wave_height_range earthquake shizuoka). simpl. lra.
Qed.

Lemma elevation_protects_witness :
  tsunami_height (estimate_tsunami quake_at_shizuoka shizuoka) = 0
  /\ inundation_rate (estimate_tsunami quake_at_shizuoka shizuoka) = 0.
Proof.
  apply (elevation_protects quake_at_shizuoka shizuoka).
  - reflexivity.
  - apply shizuoka_above_wave.
Defined.

(** *** The sample earthquake off the seaside town *)

Lemma PI_coarse : 3 < PI <= 4.
Proof. pose proof PI2_3_2. pose proof PI_4. lra. Qed.

Lemma seaside_distance :
  epicentral_distance offshore_quake seaside_town = 6371 * (0.01 * (PI / 180)).
Proof.
  unfold epicentral_distance. simpl.
  rewrite calculate_distance_meridian by lra.
  unfold Py.radians. f_equal. f_equal. lra.
Qed.

Lemma seaside_distance_bounds :
  1 < epicentral_distance offshore_quake seaside_town < 1.5.
Proof.
  rewrite seaside_distance. pose proof PI_coarse. lra.
Qed.

Lemma seaside_raw_height :
  9.97 < raw_wave_height offshore_quake seaside_town < 10.
Proof.
  pose proof seaside_distance_bounds as Hd.
  unfold raw_wave_height.
  set (d := epicentral_distance offshore_quake seaside_town) in *.
  assert (Hb : base_height offshore_quake = 10).
  { unfold base_height. simpl.
    destruct (Rge_dec 8.0 8.0); [reflexivity | exfalso; lra]. }
  rewrite Hb.
  pose proof (exp_ineq1_le (- d / 500)) as Hlo.
  assert (Hhi : exp (- d / 500) < 1).
  { rewrite <- exp_0. apply exp_increasing. lra. }
  lra.
Qed.

Lemma seaside_tsunami :
  estimate_tsunami offshore_quake seaside_town
  = {| tsunami_height := 10; arrival_time := 0; inundation_rate := 0.3 |}.
Proof.
  rewrite estimate_tsunami_coastal by reflexivity. cbv zeta.
  pose proof seaside_raw_height as Hh.
  pose proof seaside_distance_bounds as Hd.
  destruct (Rgt_dec (elevation seaside_town)
              (raw_wave_height offshore_quake seaside_town)) as [Hgt | _].
  { exfalso. simpl in Hgt. lra. }
  destruct (Rgt_dec (raw_wave_height offshore_quake seaside_town) 5)
    as [_ | n]; [| exfalso; lra].
  f_equal.
  - unfold Py.round.
    rewrite (PyFacts.round_half_even_near 100) by (simpl; lra).
    simpl. lra.
  - rewrite PyFacts.round_0_digits.
    rewrite PyFacts.round_half_even_le_half by lra. reflexivity.
Qed.

(** C3, as stated, fails: [estimate_tsunami] returns the wave height rounded
    to one decimal and the arrival time rounded to a whole minute.  For the
    sample earthquake the raw height lies strictly between 9.97 and 10 and is
    returned as 10; the distance of a little over 1 km gives a raw arrival
    time below a tenth of a minute, returned as 0. *)
Lemma tsunami_unrounded_counterexample :
  coastal seaside_town = true
  /\ elevation seaside_town <= raw_wave_height offshore_quake seaside_town
  /\ tsunami_height (estimate_tsunami offshore_quake seaside_town)
     <> raw_wave_height offshore_quake seaside_town
  /\ arrival_time (estimate_tsunami offshore_quake seaside_town)
     <> epicentral_distance offshore_quake seaside_town / 12.
Proof.
  pose proof seaside_raw_height as Hh.
  pose proof seaside_distance_bounds as Hd.
  rewrite seaside_tsunami. cbn [tsunami_height arrival_time].
  repeat split.
  - simpl. lra.
  - lra.
  - lra.
Qed.

(** C3, amended: for a coastal region whose elevation does not exceed the raw
    wave height [base_height * exp(-distance/500)] (base height 10 from
    magnitude 8.0, 5 from 7.5, else 2), [estimate_tsunami] returns that height
    rounded to one decimal and the arrival time [distance/12] rounded to a
    whole number of minutes. *)
Theorem tsunami_rounded_outputs (earthquake : EarthquakeParameters) (region : RegionData) :
  coastal region = true ->
  elevation region <= raw_wave_height earthquake region ->
  let distance := epicentral_distance earthquake region in
  let base := if Rge_dec (magnitude earthquake) 8.0 then 10
              else if Rge_dec (magnitude earthquake) 7.5 then 5 else 2 in
  tsunami_height (estimate_tsunami earthquake region)
  = Py.round (base * exp (- distance / 500)) 1
  /\ arrival_time (estimate_tsunami earthquake region)
     = Py.round (distance / 12) 0.
Proof.
  intros Hc He.
  rewrite (estimate_tsunami_coastal earthquake region Hc). cbv zeta.
  destruct (Rgt_dec (elevation region) (raw_wave_height earthquake region))
    as [Hgt | _]; [exfalso; lra |].
  split; reflexivity.
Qed.

Lemma tsunami_rounded_outputs_witness :
  tsunami_height (estimate_tsunami offshore_quake seaside_town)
  = Py.round
      ((if Rge_dec (magnitude offshore_quake) 8.0 then 10
        else if Rge_dec (magnitude offshore_quake) 7.5 then 5 else 2)
       * exp (- epicentral_distance offshore_quake seaside_town / 500)) 1
  /\ arrival_time (estimate_tsunami offshore_quake seaside_town)
     = Py.round (epicentral_distance offshore_quake seaside_town / 12) 0.
Proof.
  apply (tsunami_rounded_outputs offshore_quake seaside_town).
  - reflexivity.
  - pose proof seaside_raw_height. simpl. lra.
Defined.

(** *** The sample earthquakes at 静岡市 *)

Lemma shizuoka_at_distance :
  epicentral_distance quake_at_shizuoka shizuoka = 0.
Proof. apply calculate_distance_diag. Qed.

Lemma shizuoka_near_distance :
  1 < epicentral_distance quake_near_shizuoka shizuoka < 1.5.
Proof.
  unfold epicentral_distance. simpl.
  rewrite calculate_distance_meridian by lra.
  unfold Py.radians. pose proof PI_coarse. lra.
Qed.

Lemma protected_coast_tsunami (earthquake : EarthquakeParameters) (region : RegionData) :
  coastal region = true ->
  elevation region > raw_wave_height earthquake region ->
  estimate_tsunami earthquake region
  = {| tsunami_height := 0;
       arrival_time := Py.round (epicentral_distance earthquake region / 12) 0;
       inundation_rate := 0 |}.
Proof.
  intros Hc He.
  rewrite (estimate_tsunami_coastal earthquake region Hc). cbv zeta.
  destruct (Rgt_dec (elevation region) (raw_wave_height earthquake region))
    as [_ | n]; [| contradiction].
  rewrite PyFacts.round_of_0.
  destruct (Rgt_dec 0 5); [exfalso; lra |].
  destruct (Rgt_dec 0 2); [exfalso; lra |].
  destruct (Rgt_dec 0 0); [exfalso; lra | reflexivity].
Qed.

(** C10, as stated, fails on both counts.  静岡市 is coastal and stands 20 m
    high, above any wave of the model.  With the epicenter right under it the
    result is all zeros; with the epicenter a good kilometre away the
    distance is positive and the arrival time is still 0. *)
Lemma coastal_zero_arrival_counterexample :
  coastal shizuoka = true
  /\ estimate_tsunami quake_at_shizuoka shizuoka = zero_tsunami
  /\ elevation shizuoka > raw_wave_height quake_near_shizuoka shizuoka
  /\ 0 < epicentral_distance quake_near_shizuoka shizuoka
  /\ ~ 0 < arrival_time (estimate_tsunami quake_near_shizuoka shizuoka).
Proof.
  pose proof shizuoka_near_distance as Hd.
  repeat split.
  - rewrite protected_coast_tsunami
      by (reflexivity || apply shizuoka_above_wave).
    rewrite shizuoka_at_distance, PyFacts.round_0_digits.
    rewrite PyFacts.round_half_even_le_half by lra. reflexivity.
  - apply shizuoka_above_wave.
  - lra.
  - rewrite protected_coast_tsunami
      by (reflexivity || apply shizuoka_above_wave).
    cbn [arrival_time]. rewrite PyFacts.round_0_digits.
    rewrite PyFacts.round_half_even_le_half by lra. lra.
Qed.

Lemma rounded_arrival_pos (distance : R) :
  0 < Py.round (distance / 12) 0 <-> 6 < distance.
Proof.
  rewrite PyFacts.round_0_digits. split.
  - intros Hpos.
    destruct (Rle_lt_dec distance 6) as [Hle | Hgt]; [| exact Hgt].
    exfalso.
    destruct (Rle_lt_dec 0 distance) as [H0 | Hneg].
    + rewrite PyFacts.round_half_even_le_half in Hpos by lra. lra.
    + assert (Hz : (Py.round_half_even (distance / 12) <= 0)%Z).
      { unfold Py.round_half_even.
        destruct (Zfloor_bound (distance / 12)) as [Hlo Hhi].
        assert (Hf : (Zfloor (distance / 12) < 0)%Z) by (apply lt_IZR; lra).
        destruct (Rlt_dec _ _); [lia |].
        destruct (Rlt_dec _ _); [lia |].
        destruct (Z.even _); lia. }
      apply IZR_le in Hz. lra.
  - intros Hgt.
    assert (Hz : (1 <= Py.round_half_even (distance / 12))%Z)
      by (apply PyFacts.round_half_even_gt_half; lra).
    apply IZR_le in Hz. lra.
Qed.

(** C10, amended: for a coastal region whose wave height is forced to zero
    by the elevation check, the returned arrival time is [distance/12]
    rounded to a whole minute, which is positive exactly when the distance
    exceeds 6 km; the all-zero result is returned exactly for the regions
    that are not coastal and for those whose elevation exceeds the raw wave
    height within 6 km of the epicenter. *)
Theorem tsunami_zero_result (earthquake : EarthquakeParameters) (region : RegionData) :
  (coastal region = true ->
   elevation region > raw_wave_height earthquake region ->
   arrival_time (estimate_tsunami earthquake region)
   = Py.round (epicentral_distance earthquake region / 12) 0
   /\ (0 < arrival_time (estimate_tsunami earthquake region)
       <-> 6 < epicentral_distance earthquake region))
  /\ (estimate_tsunami earthquake region = zero_tsunami
      <-> coastal region = false
          \/ (elevation region > raw_wave_height earthquake region
              /\ epicentral_distance earthquake region <= 6)).
Proof.
  split.
  - intros Hc He. rewrite (protected_coast_tsunami _ _ Hc He).
    cbn [arrival_time]. split; [reflexivity | apply rounded_arrival_pos].
  - destruct (coastal region) eqn:Hc.
    + pose proof (raw_wave_height_range earthquake region) as Hr.
      pose proof (epicentral_distance_nonneg earthquake region) as Hd.
      split.
      * intros Hz.
        destruct (Rgt_dec (elevation region) (raw_wave_height earthquake region))
          as [He | He].
        -- right. split; [exact He |].
           rewrite (protected_coast_tsunami _ _ Hc He) in Hz.
           apply (f_equal arrival_time) in Hz. cbn [arrival_time zero_tsunami] in Hz.
           destruct (Rle_lt_dec (epicentral_distance earthquake region) 6)
             as [Hle | Hgt]; [exact Hle |].
           apply rounded_arrival_pos in Hgt. lra.
        -- exfalso.
           rewrite (estimate_tsunami_coastal _ _ Hc) in Hz. cbv zeta in Hz.
           destruct (Rgt_dec (elevation region) (raw_wave_height earthquake region))
             as [He' | _]; [contradiction |].
           apply (f_equal inundation_rate) in Hz.
           cbn [inundation_rate zero_tsunami] in Hz.
           destruct (Rgt_dec (raw_wave_height earthquake region) 5); [lra |].
           destruct (Rgt_dec (raw_wave_height earthquake region) 2); [lra |].
           destruct (Rgt_dec (raw_wave_height earthquake region) 0); lra.
      * intros [Hf | [He Hle]]; [discriminate |].
        rewrite (protected_coast_tsunami _ _ Hc He).
        rewrite PyFacts.round_0_digits.
        rewrite PyFacts.round_half_even_le_half by lra. reflexivity.
    + split; [intros _; left; reflexivity |].
      intros _. apply estimate_tsunami_inland. exact Hc.
Qed.

Lemma tsunami_zero_result_witness :
  arrival_time (estimate_tsunami quake_near_shizuoka shizuoka)
  = Py.round (epicentral_distance quake_near_shizuoka shizuoka / 12) 0
  /\ (0 < arrival_time (estimate_tsunami quake_near_shizuoka shizuoka)
      <-> 6 < epicentral_distance quake_near_shizuoka shizuoka).
Proof.
  apply (proj1 (tsunami_zero_result quake_near_shizuoka shizuoka)).
  - reflexivity.
  - apply shizuoka_above_wave.
Defined.

(** ** Casualties *)

Lemma int_of_integer (x : R) (z : Z) : x = IZR z -> Py.int x = z.
Proof. intros ->. apply PyFacts.int_IZR. Qed.

(** The casualty totals are the building share plus the tsunami share. *)
Lemma estimate_casualties_deaths
    (intensity : R) (building_damage : BuildingDamage)
    (tsunami : Tsunami) (region : RegionData) :
  deaths (estimate_casualties intensity building_damage tsunami region)
  = (Py.int (IZR (collapsed building_damage) * 0.01)
     + fst (tsunami_casualties tsunami region))%Z.
Proof.
  unfold estimate_casualties.
  destruct (tsunami_casualties tsunami region) as [tsunami_deaths tsunami_injuries].
  reflexivity.
Qed.

(** The tsunami branch is the formula of the specification at the arrival
    time stored in the tsunami result. *)
Lemma tsunami_casualties_as_formula (tsunami : Tsunami) (region : RegionData) :
  tsunami_height tsunami > 0 ->
  tsunami_casualties tsunami region
  = tsunami_casualty_formula (arrival_time tsunami) tsunami region.
Proof.
  intros Hh. unfold tsunami_casualties, tsunami_casualty_formula.
  destruct (Rgt_dec (tsunami_height tsunami) 0) as [_ | n]; [| contradiction].
  cbv zeta. rewrite PyFacts.min_Rmin.
  destruct (Rgt_dec (tsunami_height tsunami) 2); reflexivity.
Qed.

(** What the source computes for the sample earthquake: with the arrival
    time rounded to 0 nobody is evacuated. *)
Lemma seaside_casualties :
  tsunami_casualties (estimate_tsunami offshore_quake seaside_town) seaside_town
  = (30000%Z, 60000%Z).
Proof.
  rewrite seaside_tsunami. unfold tsunami_casualties.
  cbn [tsunami_height arrival_time inundation_rate population seaside_town].
  destruct (Rgt_dec 10 0) as [_ | n]; [| exfalso; lra].
  destruct (Rgt_dec 10 2) as [_ | n]; [| exfalso; lra].
  rewrite (int_of_integer (1000000 * 0.3) 300000) by lra.
  assert (Hmin : Py.min 0.8 (0 / 60) = 0).
  { unfold Py.min. destruct (Rlt_dec (0 / 60) 0.8); lra. }
  rewrite Hmin.
  rewrite (int_of_integer (300000 * (1 - 0) * 0.1) 30000) by lra.
  rewrite (int_of_integer (300000 * (1 - 0) * 0.2) 60000) by lra.
  reflexivity.
Qed.

(** C6, as stated, fails: the evacuation rate is taken from the arrival time
    that [estimate_tsunami] returned, which is rounded to a whole minute, not
    from [distance/12].  For the sample earthquake the source counts 30000
    tsunami deaths; with [arrival_min = distance/12] the formula gives fewer. *)
Lemma evacuation_unrounded_counterexample :
  coastal seaside_town = true
  /\ tsunami_height (estimate_tsunami offshore_quake seaside_town) > 0
  /\ tsunami_casualties (estimate_tsunami offshore_quake seaside_town) seaside_town
     <> tsunami_casualty_formula
          (epicentral_distance offshore_quake seaside_town / 12)
          (estimate_tsunami offshore_quake seaside_town) seaside_town.
Proof.
  split; [reflexivity |]. split.
  - rewrite seaside_tsunami. cbn [tsunami_height]. lra.
  - rewrite seaside_casualties.
    rewrite seaside_tsunami. unfold tsunami_casualty_formula.
    cbn [tsunami_height arrival_time inundation_rate population seaside_town].
    pose proof seaside_distance_bounds as Hd.
    set (d := epicentral_distance offshore_quake seaside_town) in *.
    rewrite (int_of_integer (1000000 * 0.3) 300000) by lra.
    rewrite Rmin_right by lra.
    destruct (Rgt_dec 10 2) as [_ | n]; [| exfalso; lra].
    intros Heq. apply (f_equal fst) in Heq. cbn [fst] in Heq.
    assert (Hy : 0 <= 300000 * (1 - d / 12 / 60) * 0.1) by lra.
    pose proof (PyFacts.int_below _ Hy) as Hb.
    rewrite <- Heq in Hb. lra.
Qed.

(** C6, amended: for a coastal region with positive returned tsunami height,
    the tsunami casualties follow the stated formula with [arrival_min] the
    arrival time as [estimate_tsunami] returns it, that is [distance/12]
    rounded to a whole minute, and with the returned (rounded) wave height in
    the [height > 2] test. *)
Theorem tsunami_casualties_rounded_arrival
    (earthquake : EarthquakeParameters) (region : RegionData) :
  coastal region = true ->
  tsunami_height (estimate_tsunami earthquake region) > 0 ->
  tsunami_casualties (estimate_tsunami earthquake region) region
  = tsunami_casualty_formula
      (Py.round (epicentral_distance earthquake region / 12) 0)
      (estimate_tsunami earthquake region) region.
Proof.
  intros Hc Hh.
  rewrite (tsunami_casualties_as_formula _ _ Hh). f_equal.
  rewrite (estimate_tsunami_coastal earthquake region Hc). reflexivity.
Qed.

Lemma tsunami_casualties_rounded_arrival_witness :
  tsunami_casualties (estimate_tsunami offshore_quake seaside_town) seaside_town
  = tsunami_casualty_formula
      (Py.round (epicentral_distance offshore_quake seaside_town / 12) 0)
      (estimate_tsunami offshore_quake seaside_town) seaside_town.
Proof.
  apply (tsunami_casualties_rounded_arrival offshore_quake seaside_town).
  - reflexivity.
  - rewrite seaside_tsunami. cbn [tsunami_height]. lra.
Defined.

(** ** The simulation run *)

Lemma fold_append_map {A B : Type} (f : A -> B) (l : list A) (acc : list B) :
  fold_left (fun results a => results ++ [f a]) l acc = acc ++ map f l.
Proof.
  revert acc. induction l as [| a l IH]; intros acc; cbn.
  - now rewrite app_nil_r.
  - rewrite IH, <- app_assoc. reflexivity.
Qed.

(** One call: a row per region, in the order of [self.regions], and the
    simulator object is left as it was. *)
Lemma simulate_run (earthquake : EarthquakeParameters) (self : NankaiEarthquakeSimulator) :
  simulate earthquake self
  = (map (simulate_region earthquake) (regions self), self).
Proof.
  unfold simulate, bind, self_regions, ret.
  rewrite fold_append_map. reflexivity.
Qed.

(** C8: [simulate] is deterministic: two calls in a row with the same
    parameters, the second on the simulator as the first left it, return the
    same table (same rows, same values, same order), and the simulator is
    unchanged. *)
Theorem simulate_deterministic
    (earthquake : EarthquakeParameters) (self : NankaiEarthquakeSimulator) :
  (first <- simulate earthquake ;;
   second <- simulate earthquake ;;
   ret (first, second)) self
  = ((map (simulate_region earthquake) (regions self),
      map (simulate_region earthquake) (regions self)), self).
Proof.
  unfold bind at 1. rewrite simulate_run.
  unfold bind at 1. rewrite simulate_run.
  reflexivity.
Qed.

(** * Further properties of the model *)

(** ** More on truncation and rounding *)

(** Truncation toward zero is monotone. *)
Lemma int_mono (x y : R) : x <= y -> (Py.int x <= Py.int y)%Z.
Proof.
  intros Hxy. unfold Py.int.
  destruct (Rle_dec 0 x) as [Hx | Hx], (Rle_dec 0 y) as [Hy | Hy].
  - apply Zfloor_le. exact Hxy.
  - exfalso. lra.
  - assert (H1 : (0 <= Zfloor (- x))%Z) by (apply Zfloor_lub; lra).
    assert (H2 : (0 <= Zfloor y)%Z) by (apply Zfloor_lub; lra).
    unfold Zceil. lia.
  - apply Zceil_le. exact Hxy.
Qed.

Lemma int_above (x : R) : 0 <= x -> x < IZR (Py.int x) + 1.
Proof.
  intros Hx. unfold Py.int.
  destruct (Rle_dec 0 x) as [_ | n]; [| contradiction].
  apply (Zfloor_bound x).
Qed.

(** Rounding goes to the floor or to the integer above it, depending on the
    side of one half the fractional part lies on. *)
Lemma round_half_even_cases (x : R) :
  (Py.round_half_even x = Zfloor x /\ x - IZR (Zfloor x) <= 1 / 2)
  \/ (Py.round_half_even x = (Zfloor x + 1)%Z /\ 1 / 2 <= x - IZR (Zfloor x)).
Proof.
  unfold Py.round_half_even.
  destruct (Rlt_dec (x - IZR (Zfloor x)) (1 / 2)) as [Hlt | Hge].
  - left. split; [reflexivity | lra].
  - destruct (Rlt_dec (1 / 2) (x - IZR (Zfloor x))) as [Hgt | Hle].
    + right. split; [reflexivity | lra].
    + destruct (Z.even (Zfloor x)).
      * left. split; [reflexivity | lra].
      * right. split; [reflexivity | lra].
Qed.

(** Rounding half to even is monotone. *)
Lemma round_half_even_mono (x y : R) :
  x <= y -> (Py.round_half_even x <= Py.round_half_even y)%Z.
Proof.
  intros Hxy.
  destruct (Req_dec x y) as [-> | Hne]; [lia |].
  pose proof (Zfloor_le x y Hxy) as Hf.
  destruct (round_half_even_cases x) as [[Ex Fx] | [Ex Fx]];
    destruct (round_half_even_cases y) as [[Ey Fy] | [Ey Fy]];
    rewrite Ex, Ey; try lia.
  destruct (Z.eq_dec (Zfloor x) (Zfloor y)) as [Heq | Hneq]; [| lia].
  exfalso. rewrite Heq in Fx. lra.
Qed.

Lemma round_half_even_range (a b : Z) (x : R) :
  IZR a <= x <= IZR b -> (a <= Py.round_half_even x <= b)%Z.
Proof.
  intros [Ha Hb].
  pose proof (round_half_even_mono _ _ Ha) as La.
  pose proof (round_half_even_mono _ _ Hb) as Lb.
  rewrite PyFacts.round_half_even_IZR in La, Lb. lia.
Qed.

Lemma pow10_pos (n : nat) : 0 < 10 ^ n.
Proof. apply pow_lt. lra. Qed.

(** [round(x, n)] is monotone in [x]. *)
Lemma round_mono (x y : R) (ndigits : nat) :
  x <= y -> Py.round x ndigits <= Py.round y ndigits.
Proof.
  intros Hxy. unfold Py.round.
  pose proof (pow10_pos ndigits) as Hp.
  apply Rmult_le_compat_r; [left; apply Rinv_0_lt_compat; exact Hp |].
  apply IZR_le, round_half_even_mono.
  apply Rmult_le_compat_r; lra.
Qed.

Lemma clamp_nonpos (hi x : R) : 0 <= hi -> x <= 0 -> Py.min hi (Py.max 0 x) = 0.
Proof.
  intros Hhi Hx. unfold Py.min, Py.max.
  destruct (Rlt_dec 0 x); [exfalso; lra |].
  destruct (Rlt_dec 0 hi); lra.
Qed.

Lemma clamp_above (hi x : R) : 0 <= hi -> hi <= x -> Py.min hi (Py.max 0 x) = hi.
Proof.
  intros Hhi Hx. unfold Py.min, Py.max.
  destruct (Rlt_dec 0 x); destruct (Rlt_dec _ hi); lra.
Qed.

(** ** More on the distance *)







(** ** More on the intensity *)

Lemma log10_1 : Py.log10 1 = 0.
Proof. unfold Py.log10. rewrite ln_1. field. apply Rgt_not_eq.
  rewrite <- ln_1. apply ln_increasing; lra. Qed.

Lemma ln_10_pos : 0 < ln 10.
Proof. rewrite <- ln_1. apply ln_increasing; lra. Qed.

Lemma log10_mono (x y : R) : 0 < x -> x <= y -> Py.log10 x <= Py.log10 y.
Proof.
  intros Hx Hxy. unfold Py.log10. pose proof ln_10_pos as H10.
  apply Rmult_le_compat_r; [left; apply Rinv_0_lt_compat; exact H10 |].
  destruct Hxy as [Hlt | ->]; [left; apply ln_increasing; lra | lra].
Qed.

(** The intensity in terms of the epicentral distance. *)
Lemma calculate_seismic_intensity_unfold
    (earthquake : EarthquakeParameters) (region : RegionData) :
  calculate_seismic_intensity earthquake region
  = let distance := if Rlt_dec (epicentral_distance earthquake region) 1
                    then 1 else epicentral_distance earthquake region in
    Py.min 7 (Py.max 0
      ((magnitude earthquake - 3.5 * Py.log10 distance - 0.006 * distance + 1.5)
       * (1 - (depth earthquake / 100) * 0.3))).
Proof. reflexivity. Qed.

(** X3: within 1 km of the epicenter the distance is floored at 1 km, and for
    a magnitude of at least 7 at a depth of at most 50 km the intensity there
    is the upper clamp bound 7. *)
Theorem intensity_at_epicenter
    (earthquake : EarthquakeParameters) (region : RegionData) :
  epicentral_distance earthquake region < 1 ->
  7 <= magnitude earthquake ->
  depth earthquake <= 50 ->
  calculate_seismic_intensity earthquake region = 7.
Proof.
  intros Hd Hm Hz.
  rewrite calculate_seismic_intensity_unfold. cbv zeta.
  destruct (Rlt_dec (epicentral_distance earthquake region) 1) as [_ | n];
    [| contradiction].
  rewrite log10_1.
  apply clamp_above; [lra | nra].
Qed.

Lemma intensity_at_epicenter_witness :
  calculate_seismic_intensity quake_at_shizuoka shizuoka = 7.
Proof.
  apply (intensity_at_epicenter quake_at_shizuoka shizuoka).
  - rewrite shizuoka_at_distance. lra.
  - simpl. lra.
  - simpl. lra.
Defined.

(** X4: for one earthquake at a depth of at most 1000/3 km (where the depth
    factor is still non-negative), a region farther from the epicenter never
    gets a higher intensity than a nearer one. *)
Theorem intensity_decreases_with_distance
    (earthquake : EarthquakeParameters) (near far : RegionData) :
  depth earthquake <= 1000 / 3 ->
  epicentral_distance earthquake near <= epicentral_distance earthquake far ->
  calculate_seismic_intensity earthquake far
  <= calculate_seismic_intensity earthquake near.
Proof.
  intros Hz Hd.
  rewrite !calculate_seismic_intensity_unfold. cbv zeta.
  set (d1 := if Rlt_dec (epicentral_distance earthquake near) 1 then 1 else _).
  set (d2 := if Rlt_dec (epicentral_distance earthquake far) 1 then 1 else _).
  assert (H1 : 1 <= d1).
  { unfold d1. destruct (Rlt_dec (epicentral_distance earthquake near) 1); lra. }
  assert (H12 : d1 <= d2).
  { unfold d1, d2.
    destruct (Rlt_dec (epicentral_distance earthquake near) 1);
      destruct (Rlt_dec (epicentral_distance earthquake far) 1); lra. }
  pose proof (log10_mono d1 d2 ltac:(lra) H12) as Hlog.
  apply PyFacts.min_max_mono.
  apply Rmult_le_compat_r; lra.
Qed.

Lemma intensity_decreases_with_distance_witness :
  calculate_seismic_intensity quake_at_shizuoka seaside_town
  <= calculate_seismic_intensity quake_at_shizuoka shizuoka.
Proof.
  apply (intensity_decreases_with_distance quake_at_shizuoka shizuoka seaside_town).
  - simpl. lra.
  - rewrite shizuoka_at_distance. apply epicentral_distance_nonneg.
Defined.

(** X5: with magnitude, epicenter and region fixed, a deeper earthquake never
    gives a higher intensity, as long as the depth stays at most 1000/3 km. *)
Theorem intensity_decreases_with_depth
    (region : RegionData) (m la lo d1 d2 : R) :
  d1 <= d2 ->
  d2 <= 1000 / 3 ->
  calculate_seismic_intensity (Build_EarthquakeParameters m d2 la lo) region
  <= calculate_seismic_intensity (Build_EarthquakeParameters m d1 la lo) region.
Proof.
  intros H12 H2.
  rewrite !calculate_seismic_intensity_unfold.
  unfold epicentral_distance.
  cbn [magnitude depth epicenter_lat epicenter_lon]. cbv zeta.
  set (dist := if Rlt_dec _ 1 then 1 else _).
  set (raw := m - 3.5 * Py.log10 dist - 0.006 * dist + 1.5).
  destruct (Rle_lt_dec 0 raw) as [Hpos | Hneg].
  - apply PyFacts.min_max_mono. nra.
  - rewrite !clamp_nonpos by nra. lra.
Qed.

Lemma intensity_decreases_with_depth_witness :
  calculate_seismic_intensity (Build_EarthquakeParameters 8.7 50 33 136) kochi
  <= calculate_seismic_intensity (Build_EarthquakeParameters 8.7 5 33 136) kochi.
Proof.
  apply (intensity_decreases_with_depth kochi 8.7 33 136 5 50); lra.
Defined.

(** ** More on building damage *)

Ltac split_tiers :=
  repeat match goal with
         | |- context [Rge_dec ?a ?b] => destruct (Rge_dec a b)
         end.

Lemma damage_rates_mono_intensity (i1 i2 : R) (region : RegionData) :
  0 <= wooden_ratio region <= 1 ->
  i1 <= i2 ->
  fst (damage_rates i1 region) <= fst (damage_rates i2 region)
  /\ snd (damage_rates i1 region) <= snd (damage_rates i2 region).
Proof.
  intros Hw Hi. unfold damage_rates. split_tiers; cbn [fst snd]; lra.
Qed.


Lemma damage_rates_shares (intensity : R) (region : RegionData) :
  0 <= wooden_ratio region <= 1 ->
  0 <= fst (damage_rates intensity region) <= snd (damage_rates intensity region)
  /\ fst (damage_rates intensity region)
     + snd (damage_rates intensity region)
     + snd (damage_rates intensity region) * 0.5 <= 0.9.
Proof.
  intros Hw. unfold damage_rates. split_tiers; cbn [fst snd]; lra.
Qed.

(** The three counts in terms of the two rates. *)
Lemma estimate_building_damage_counts (intensity : R) (region : RegionData) :
  let b := IZR (buildings region) in
  let collapse_rate := fst (damage_rates intensity region) in
  let severe_rate := snd (damage_rates intensity region) in
  collapsed (estimate_building_damage intensity region)
  = Py.int (b * collapse_rate)
  /\ severe_damage (estimate_building_damage intensity region)
     = Py.int (b * severe_rate)
  /\ moderate_damage (estimate_building_damage intensity region)
     = Py.int (b * severe_rate * 0.5)
  /\ undamaged (estimate_building_damage intensity region)
     = (buildings region - Py.int (b * collapse_rate) - Py.int (b * severe_rate)
        - Py.int (b * severe_rate * 0.5))%Z.
Proof.
  unfold estimate_building_damage.
  destruct (damage_rates intensity region) as [collapse_rate severe_rate].
  cbn. repeat split; reflexivity.
Qed.

(** Damage counts against the intensity. *)
Lemma estimate_building_damage_mono (i1 i2 : R) (region : RegionData) :
  (0 <= buildings region)%Z ->
  0 <= wooden_ratio region <= 1 ->
  i1 <= i2 ->
  let d1 := estimate_building_damage i1 region in
  let d2 := estimate_building_damage i2 region in
  (collapsed d1 <= collapsed d2 /\ severe_damage d1 <= severe_damage d2
   /\ moderate_damage d1 <= moderate_damage d2
   /\ undamaged d2 <= undamaged d1)%Z.
Proof.
  intros Hb Hw Hi. cbv zeta.
  destruct (estimate_building_damage_counts i1 region) as (C1 & S1 & M1 & U1).
  destruct (estimate_building_damage_counts i2 region) as (C2 & S2 & M2 & U2).
  cbv zeta in *. rewrite C1, S1, M1, U1, C2, S2, M2, U2.
  destruct (damage_rates_mono_intensity i1 i2 region Hw Hi) as [Hc Hs].
  apply IZR_le in Hb.
  set (b := IZR (buildings region)) in *.
  assert (Lc : (Py.int (b * fst (damage_rates i1 region))
                <= Py.int (b * fst (damage_rates i2 region)))%Z)
    by (apply int_mono; nra).
  assert (Ls : (Py.int (b * snd (damage_rates i1 region))
                <= Py.int (b * snd (damage_rates i2 region)))%Z)
    by (apply int_mono; nra).
  assert (Lm : (Py.int (b * snd (damage_rates i1 region) * 0.5)
                <= Py.int (b * snd (damage_rates i2 region) * 0.5))%Z)
    by (apply int_mono; nra).
  lia.
Qed.

(** X6: stronger shaking never reports less damage: for a region with
    [buildings >= 0] and [wooden_ratio] in [[0,1]], the collapsed, severe and
    moderate counts are non-decreasing in the intensity across all tier
    breakpoints, and the undamaged count is non-increasing. *)
Theorem damage_monotone_in_intensity (i1 i2 : R) (region : RegionData) :
  (0 <= buildings region)%Z ->
  0 <= wooden_ratio region <= 1 ->
  i1 <= i2 ->
  let d1 := estimate_building_damage i1 region in
  let d2 := estimate_building_damage i2 region in
  (collapsed d1 <= collapsed d2 /\ severe_damage d1 <= severe_damage d2
   /\ moderate_damage d1 <= moderate_damage d2
   /\ undamaged d2 <= undamaged d1)%Z.
Proof.
  exact (estimate_building_damage_mono i1 i2 region).
Qed.

Lemma damage_monotone_in_intensity_witness :
  let d1 := estimate_building_damage 5.2 kochi in
  let d2 := estimate_building_damage 6.7 kochi in
  (collapsed d1 <= collapsed d2 /\ severe_damage d1 <= severe_damage d2
   /\ moderate_damage d1 <= moderate_damage d2
   /\ undamaged d2 <= undamaged d1)%Z.
Proof.
  apply (damage_monotone_in_intensity 5.2 6.7 kochi).
  - simpl. lia.
  - simpl. lra.
  - lra.
Defined.



(** X8: below intensity 5 the model reports nothing, whatever the region
    record holds: no building is damaged, all are counted undamaged, and no
    utility is out. *)
Theorem nothing_below_intensity_5 (intensity : R) (region : RegionData) :
  intensity < 5 ->
  estimate_building_damage intensity region
  = {| collapsed := 0; severe_damage := 0; moderate_damage := 0;
       undamaged := buildings region |}
  /\ estimate_infrastructure_damage intensity region
     = {| electricity_outage := 0; water_outage := 0; gas_outage := 0 |}.
Proof.
  intros Hi. split.
  - unfold estimate_building_damage, damage_rates.
    destruct (Rge_dec intensity 7); [exfalso; lra |].
    destruct (Rge_dec intensity 6.5); [exfalso; lra |].
    destruct (Rge_dec intensity 6); [exfalso; lra |].
    destruct (Rge_dec intensity 5.5); [exfalso; lra |].
    destruct (Rge_dec intensity 5); [exfalso; lra |].
    rewrite Rmult_0_r, Rmult_0_l, PyFacts.int_0.
    f_equal. lia.
  - unfold estimate_infrastructure_damage.
    destruct (Rge_dec intensity 6.5); [exfalso; lra |].
    destruct (Rge_dec intensity 6); [exfalso; lra |].
    destruct (Rge_dec intensity 5.5); [exfalso; lra |].
    destruct (Rge_dec intensity 5); [exfalso; lra |].
    reflexivity.
Qed.

Lemma nothing_below_intensity_5_witness :
  estimate_building_damage 4.9 osaka
  = {| collapsed := 0; severe_damage := 0; moderate_damage := 0;
       undamaged := buildings osaka |}
  /\ estimate_infrastructure_damage 4.9 osaka
     = {| electricity_outage := 0; water_outage := 0; gas_outage := 0 |}.
Proof.
  apply (nothing_below_intensity_5 4.9 osaka). lra.
Defined.

(** X9: for a region with [buildings >= 0] and [wooden_ratio] in [[0,1]], at
    every intensity, the collapsed count and the moderate count are each at
    most the severe count, and at least a tenth of the buildings stay
    undamaged. *)
Theorem damage_shares (intensity : R) (region : RegionData) :
  (0 <= buildings region)%Z ->
  0 <= wooden_ratio region <= 1 ->
  let d := estimate_building_damage intensity region in
  (collapsed d <= severe_damage d /\ moderate_damage d <= severe_damage d
   /\ buildings region <= 10 * undamaged d)%Z.
Proof.
  intros Hb Hw. cbv zeta.
  destruct (estimate_building_damage_counts intensity region) as (C & S & M & U).
  cbv zeta in *. rewrite C, S, M, U.
  destruct (damage_rates_shares intensity region Hw) as [[Hc Hcs] Hsum].
  set (rc := fst (damage_rates intensity region)) in *.
  set (rs := snd (damage_rates intensity region)) in *.
  apply IZR_le in Hb.
  set (b := IZR (buildings region)) in *.
  assert (Hxc : 0 <= b * rc) by nra.
  assert (Hxs : 0 <= b * rs) by nra.
  assert (Hxm : 0 <= b * rs * 0.5) by nra.
  pose proof (PyFacts.int_below _ Hxc) as Bc.
  pose proof (PyFacts.int_below _ Hxs) as Bs.
  pose proof (PyFacts.int_below _ Hxm) as Bm.
  assert (Htot : (10 * (Py.int (b * rc) + Py.int (b * rs) + Py.int (b * rs * 0.5))
                  <= 9 * buildings region)%Z).
  { apply le_IZR. rewrite !mult_IZR, !plus_IZR. fold b. nra. }
  repeat split; [apply int_mono; nra | apply int_mono; nra | lia].
Qed.

Lemma damage_shares_witness :
  let d := estimate_building_damage 7 kochi in
  (collapsed d <= severe_damage d /\ moderate_damage d <= severe_damage d
   /\ buildings kochi <= 10 * undamaged d)%Z.
Proof.
  apply (damage_shares 7 kochi).
  - simpl. lia.
  - simpl. lra.
Defined.

(** ** Infrastructure *)

(** X10: at every intensity the outage fractions are ordered
    electricity <= gas <= water and lie in [[0, 0.9]], and a higher intensity
    never gives a lower outage fraction for any of the three utilities. *)
Theorem infrastructure_outage_monotone (i1 i2 : R) (region : RegionData) :
  i1 <= i2 ->
  let o1 := estimate_infrastructure_damage i1 region in
  let o2 := estimate_infrastructure_damage i2 region in
  0 <= electricity_outage o1 <= gas_outage o1
  /\ gas_outage o1 <= water_outage o1 <= 0.9
  /\ electricity_outage o1 <= electricity_outage o2
  /\ water_outage o1 <= water_outage o2
  /\ gas_outage o1 <= gas_outage o2.
Proof.
  intros Hi. cbv zeta. unfold estimate_infrastructure_damage.
  split_tiers;
    cbn [electricity_outage water_outage gas_outage]; split_tiers; lra.
Qed.

Lemma infrastructure_outage_monotone_witness :
  let o1 := estimate_infrastructure_damage 5.7 kochi in
  let o2 := estimate_infrastructure_damage 6.6 kochi in
  0 <= electricity_outage o1 <= gas_outage o1
  /\ gas_outage o1 <= water_outage o1 <= 0.9
  /\ electricity_outage o1 <= electricity_outage o2
  /\ water_outage o1 <= water_outage o2
  /\ gas_outage o1 <= gas_outage o2.
Proof.
  apply (infrastructure_outage_monotone 5.7 6.6 kochi). lra.
Defined.

(** ** More on the tsunami *)

Lemma round1_unfold (h : R) :
  Py.round h 1 = IZR (Py.round_half_even (h * 10)) / 10.
Proof. unfold Py.round. rewrite pow_1. reflexivity. Qed.

(** A non-negative height is reported as positive exactly when it exceeds
    0.05, and then as at least 0.1. *)
Lemma round1_pos_iff (h : R) :
  0 <= h -> (0 < Py.round h 1 <-> 0.05 < h).
Proof.
  intros Hh. rewrite round1_unfold. split.
  - intros Hpos.
    destruct (Rle_lt_dec h 0.05) as [Hle | Hgt]; [| exact Hgt].
    exfalso. rewrite PyFacts.round_half_even_le_half in Hpos by lra. lra.
  - intros Hgt.
    assert (Hz : (1 <= Py.round_half_even (h * 10))%Z)
      by (apply PyFacts.round_half_even_gt_half; lra).
    apply IZR_le in Hz. lra.
Qed.

Lemma round1_tenth (h : R) : 0.05 < h -> 0.1 <= Py.round h 1.
Proof.
  intros Hgt. rewrite round1_unfold.
  assert (Hz : (1 <= Py.round_half_even (h * 10))%Z)
    by (apply PyFacts.round_half_even_gt_half; lra).
  apply IZR_le in Hz. lra.
Qed.

(** The wave height after the elevation check, before rounding. *)
Lemma checked_height_cases (earthquake : EarthquakeParameters) (region : RegionData) :
  let h := if Rgt_dec (elevation region) (raw_wave_height earthquake region)
           then 0 else raw_wave_height earthquake region in
  (h = 0 /\ elevation region > raw_wave_height earthquake region)
  \/ (h = raw_wave_height earthquake region
      /\ elevation region <= raw_wave_height earthquake region).
Proof.
  cbv zeta.
  destruct (Rgt_dec (elevation region) (raw_wave_height earthquake region)).
  - left. split; [reflexivity | assumption].
  - right. split; [reflexivity | lra].
Qed.

Lemma estimate_tsunami_height_pos (earthquake : EarthquakeParameters) (region : RegionData) :
  tsunami_height (estimate_tsunami earthquake region) > 0
  <-> coastal region = true
      /\ elevation region <= raw_wave_height earthquake region
      /\ 0.05 < raw_wave_height earthquake region.
Proof.
  pose proof (raw_wave_height_range earthquake region) as Hr.
  destruct (coastal region) eqn:Hc.
  - rewrite (estimate_tsunami_coastal _ _ Hc). cbv zeta.
    cbn [tsunami_height].
    destruct (checked_height_cases earthquake region) as [[Eh He] | [Eh He]];
      cbv zeta in Eh; rewrite Eh.
    + rewrite PyFacts.round_of_0. split; [lra | intros (_ & H & _); lra].
    + unfold Rgt. rewrite round1_pos_iff by lra. tauto.
  - rewrite (estimate_tsunami_inland _ _ Hc). cbn [tsunami_height zero_tsunami].
    split; [lra | intros (H & _); discriminate].
Qed.

(** X11: [estimate_tsunami] reports a positive height exactly for a coastal
    region whose elevation does not exceed the raw wave height when that raw
    height is above 0.05 m; a raw height of at most 0.05 m is rounded away to
    0.  A positive reported height is at least 0.1 m. *)
Theorem tsunami_reported_iff (earthquake : EarthquakeParameters) (region : RegionData) :
  (tsunami_height (estimate_tsunami earthquake region) > 0
   <-> coastal region = true
       /\ elevation region <= raw_wave_height earthquake region
       /\ 0.05 < raw_wave_height earthquake region)
  /\ (tsunami_height (estimate_tsunami earthquake region) = 0
      \/ 0.1 <= tsunami_height (estimate_tsunami earthquake region)).
Proof.
  split; [apply estimate_tsunami_height_pos |].
  destruct (Rgt_dec (tsunami_height (estimate_tsunami earthquake region)) 0)
    as [Hpos | Hnot].
  - right. apply estimate_tsunami_height_pos in Hpos as (Hc & He & Hr).
    rewrite (estimate_tsunami_coastal _ _ Hc). cbv zeta. cbn [tsunami_height].
    destruct (Rgt_dec (elevation region) (raw_wave_height earthquake region));
      [exfalso; lra |].
    apply round1_tenth. exact Hr.
  - left.
    pose proof (raw_wave_height_range earthquake region) as Hr.
    destruct (coastal region) eqn:Hc.
    + rewrite (estimate_tsunami_coastal _ _ Hc) in *. cbv zeta in *.
      cbn [tsunami_height] in *.
      destruct (Rgt_dec (elevation region) (raw_wave_height earthquake region)).
      * apply PyFacts.round_of_0.
      * destruct (Rle_lt_dec (raw_wave_height earthquake region) 0.05) as [Hle | Hgt].
        -- rewrite round1_unfold.
           rewrite PyFacts.round_half_even_le_half by lra. lra.
        -- exfalso. apply Hnot. apply round1_pos_iff; lra.
    + rewrite (estimate_tsunami_inland _ _ Hc). reflexivity.
Qed.

(** X12: whatever the inputs, the reported tsunami height is a whole number
    of tenths between 0 and 10 m, the arrival time is a whole non-negative
    number of minutes, and the inundation fraction is one of 0, 0.05, 0.15
    and 0.3. *)
Theorem tsunami_output_ranges (earthquake : EarthquakeParameters) (region : RegionData) :
  let t := estimate_tsunami earthquake region in
  (exists k : Z, (0 <= k <= 100)%Z /\ tsunami_height t = IZR k / 10)
  /\ (exists n : Z, (0 <= n)%Z /\ arrival_time t = IZR n)
  /\ (inundation_rate t = 0 \/ inundation_rate t = 0.05
      \/ inundation_rate t = 0.15 \/ inundation_rate t = 0.3).
Proof.
  cbv zeta.
  destruct (coastal region) eqn:Hc.
  - rewrite (estimate_tsunami_coastal _ _ Hc). cbv zeta.
    cbn [tsunami_height arrival_time inundation_rate].
    pose proof (raw_wave_height_range earthquake region) as Hr.
    pose proof (epicentral_distance_nonneg earthquake region) as Hd.
    set (h := if Rgt_dec (elevation region) (raw_wave_height earthquake region)
              then 0 else raw_wave_height earthquake region).
    assert (Hh : 0 <= h <= 10).
    { unfold h.
      destruct (Rgt_dec (elevation region) (raw_wave_height earthquake region));
        lra. }
    repeat split.
    + exists (Py.round_half_even (h * 10)). split.
      * apply round_half_even_range. lra.
      * apply round1_unfold.
    + exists (Py.round_half_even (epicentral_distance earthquake region / 12)).
      split.
      * assert (H0 : 0 <= epicentral_distance earthquake region / 12) by lra.
        apply round_half_even_mono in H0.
        rewrite (PyFacts.round_half_even_IZR 0) in H0. exact H0.
      * apply PyFacts.round_0_digits.
    + destruct (Rgt_dec h 5); [tauto |].
      destruct (Rgt_dec h 2); [tauto |].
      destruct (Rgt_dec h 0); tauto.
  - rewrite (estimate_tsunami_inland _ _ Hc).
    cbn [tsunami_height arrival_time inundation_rate zero_tsunami].
    repeat split.
    + exists 0%Z. split; [lia | lra].
    + exists 0%Z. split; [lia | reflexivity].
    + tauto.
Qed.

(** X13: high ground is never flooded: a region whose elevation exceeds the
    base height of the magnitude tier (10, 5 or 2 m) gets tsunami height 0
    and inundation 0, wherever the epicenter lies; above 10 m this holds for
    every earthquake. *)
Theorem high_ground_never_flooded
    (earthquake : EarthquakeParameters) (region : RegionData) :
  elevation region > base_height earthquake ->
  tsunami_height (estimate_tsunami earthquake region) = 0
  /\ inundation_rate (estimate_tsunami earthquake region) = 0.
Proof.
  intros He.
  destruct (coastal region) eqn:Hc.
  - assert (Hraw : elevation region > raw_wave_height earthquake region).
    { unfold raw_wave_height.
      pose proof (base_height_range earthquake) as Hb.
      pose proof (epicentral_distance_nonneg earthquake region) as Hd.
      set (x := - epicentral_distance earthquake region / 500).
      assert (Hx : exp x <= 1).
      { rewrite <- exp_0. destruct (Req_dec x 0) as [-> | Hne]; [lra |].
        left. apply exp_increasing. unfold x in *. lra. }
      pose proof (exp_pos x). nra. }
    rewrite (protected_coast_tsunami _ _ Hc Hraw). split; reflexivity.
  - rewrite (estimate_tsunami_inland _ _ Hc). split; reflexivity.
Qed.

Lemma high_ground_never_flooded_witness :
  tsunami_height (estimate_tsunami (Build_EarthquakeParameters 7.9 10 33 136) wakayama) = 0
  /\ inundation_rate (estimate_tsunami (Build_EarthquakeParameters 7.9 10 33 136) wakayama) = 0.
Proof.
  apply (high_ground_never_flooded (Build_EarthquakeParameters 7.9 10 33 136) wakayama).
  unfold base_height. simpl.
  destruct (Rge_dec 7.9 8.0); [exfalso; lra |].
  destruct (Rge_dec 7.9 7.5); lra.
Defined.

Lemma base_height_mono (e1 e2 : EarthquakeParameters) :
  magnitude e1 <= magnitude e2 -> base_height e1 <= base_height e2.
Proof.
  intros Hm. unfold base_height. split_tiers; lra.
Qed.

(** Two earthquakes that differ in the magnitude only. *)
Lemma tsunami_mono_magnitude (region : RegionData) (d la lo m1 m2 : R) :
  m1 <= m2 ->
  let t1 := estimate_tsunami (Build_EarthquakeParameters m1 d la lo) region in
  let t2 := estimate_tsunami (Build_EarthquakeParameters m2 d la lo) region in
  tsunami_height t1 <= tsunami_height t2
  /\ inundation_rate t1 <= inundation_rate t2
  /\ arrival_time t1 = arrival_time t2
  /\ 0 <= inundation_rate t1
  /\ 0 <= arrival_time t1.
Proof.
  intros Hm. cbv zeta.
  set (e1 := Build_EarthquakeParameters m1 d la lo).
  set (e2 := Build_EarthquakeParameters m2 d la lo).
  destruct (coastal region) eqn:Hc.
  - rewrite !(estimate_tsunami_coastal _ _ Hc). cbv zeta.
    cbn [tsunami_height arrival_time inundation_rate].
    assert (Ed : epicentral_distance e1 region = epicentral_distance e2 region)
      by reflexivity.
    pose proof (raw_wave_height_range e1 region) as R1.
    pose proof (raw_wave_height_range e2 region) as R2.
    pose proof (epicentral_distance_nonneg e1 region) as Hd.
    assert (Hraw : raw_wave_height e1 region <= raw_wave_height e2 region).
    { unfold raw_wave_height. rewrite <- Ed.
      pose proof (base_height_mono e1 e2 Hm).
      pose proof (exp_pos (- epicentral_distance e1 region / 500)). nra. }
    set (h1 := if Rgt_dec (elevation region) (raw_wave_height e1 region)
               then 0 else raw_wave_height e1 region).
    set (h2 := if Rgt_dec (elevation region) (raw_wave_height e2 region)
               then 0 else raw_wave_height e2 region).
    assert (Hh : 0 <= h1 <= h2).
    { unfold h1, h2.
      destruct (Rgt_dec (elevation region) (raw_wave_height e1 region));
        destruct (Rgt_dec (elevation region) (raw_wave_height e2 region)); lra. }
    repeat split.
    + apply round_mono. lra.
    + repeat match goal with
             | |- context [Rgt_dec ?a ?b] => destruct (Rgt_dec a b)
             end; lra.
    + repeat match goal with
             | |- context [Rgt_dec ?a ?b] => destruct (Rgt_dec a b)
             end; lra.
    + rewrite PyFacts.round_0_digits.
      assert (H0 : 0 <= epicentral_distance e1 region / 12) by lra.
      apply round_half_even_mono in H0.
      rewrite (PyFacts.round_half_even_IZR 0) in H0.
      apply IZR_le in H0. exact H0.
  - rewrite !(estimate_tsunami_inland _ _ Hc).
    cbn [tsunami_height arrival_time inundation_rate zero_tsunami].
    repeat split; lra.
Qed.

(** X14: with depth, epicenter and region fixed, a larger magnitude never
    lowers the reported tsunami height or the inundation fraction, and never
    changes the arrival time. *)
Theorem tsunami_monotone_in_magnitude (region : RegionData) (d la lo m1 m2 : R) :
  m1 <= m2 ->
  let t1 := estimate_tsunami (Build_EarthquakeParameters m1 d la lo) region in
  let t2 := estimate_tsunami (Build_EarthquakeParameters m2 d la lo) region in
  tsunami_height t1 <= tsunami_height t2
  /\ inundation_rate t1 <= inundation_rate t2
  /\ arrival_time t1 = arrival_time t2.
Proof.
  intros Hm.
  destruct (tsunami_mono_magnitude region d la lo m1 m2 Hm) as (H1 & H2 & H3 & _).
  cbv zeta in *. repeat split; assumption.
Qed.

Lemma tsunami_monotone_in_magnitude_witness :
  let t1 := estimate_tsunami (Build_EarthquakeParameters 7.2 10 33 136) kochi in
  let t2 := estimate_tsunami (Build_EarthquakeParameters 8.7 10 33 136) kochi in
  tsunami_height t1 <= tsunami_height t2
  /\ inundation_rate t1 <= inundation_rate t2
  /\ arrival_time t1 = arrival_time t2.
Proof.
  apply (tsunami_monotone_in_magnitude kochi 10 33 136 7.2 8.7). lra.
Defined.

(** X15: for a region that is not coastal, the row of the result table shows
    tsunami height 0 and arrival time 0, and its death count is the building
    share alone, 1% of the collapsed buildings truncated. *)
Theorem inland_row (earthquake : EarthquakeParameters) (region : RegionData) :
  coastal region = false ->
  let row := simulate_region earthquake region in
  row_tsunami_height row = 0
  /\ row_arrival_time row = 0
  /\ row_deaths row = Py.int (IZR (row_collapsed row) * 0.01).
Proof.
  intros Hc. cbv zeta. unfold simulate_region. cbv zeta.
  cbn [row_tsunami_height row_arrival_time row_deaths row_collapsed].
  rewrite (estimate_tsunami_inland _ _ Hc).
  rewrite estimate_casualties_deaths.
  unfold tsunami_casualties. cbn [tsunami_height zero_tsunami].
  destruct (Rgt_dec 0 0); [exfalso; lra |].
  cbn [fst]. repeat split. lia.
Qed.

Lemma inland_row_witness :
  let row := simulate_region offshore_quake nagoya in
  row_tsunami_height row = 0
  /\ row_arrival_time row = 0
  /\ row_deaths row = Py.int (IZR (row_collapsed row) * 0.01).
Proof.
  apply (inland_row offshore_quake nagoya). reflexivity.
Defined.

Lemma exp_6_lower : 64 < exp 6.
Proof.
  pose proof (exp_ineq1 1 ltac:(lra)) as H1.
  replace 6 with (1 + 1 + 1 + 1 + 1 + 1) by lra.
  rewrite !exp_plus.
  set (e := exp 1) in *.
  assert (H2 : 4 < e * e) by nra.
  assert (H3 : 8 < e * e * e) by nra.
  assert (H4 : 16 < e * e * e * e) by nra.
  assert (H5 : 32 < e * e * e * e * e) by nra.
  nra.
Qed.

Lemma exp_far (x : R) : 6 <= x -> exp (- x) < 1 / 64.
Proof.
  intros Hx. rewrite exp_Ropp.
  assert (H6 : 64 < exp x).
  { pose proof exp_6_lower.
    destruct Hx as [Hlt | <-]; [| assumption].
    pose proof (exp_increasing 6 x Hlt). lra. }
  unfold Rdiv. rewrite Rmult_1_l.
  apply Rinv_lt_contravar; [| exact H6].
  pose proof (exp_pos x). nra.
Qed.

(** X16: a wave too small to report is ignored by the casualty count: for a
    coastal region whose elevation does not exceed a raw wave height of at
    most 0.05 m, [estimate_tsunami] returns height 0 together with an
    inundation fraction of 0.05, and [estimate_casualties] then counts no
    tsunami deaths and no tsunami injuries. *)
Theorem tiny_wave_ignored (earthquake : EarthquakeParameters) (region : RegionData) :
  coastal region = true ->
  elevation region <= raw_wave_height earthquake region ->
  raw_wave_height earthquake region <= 0.05 ->
  let t := estimate_tsunami earthquake region in
  tsunami_height t = 0
  /\ inundation_rate t = 0.05
  /\ tsunami_casualties t region = (0%Z, 0%Z).
Proof.
  intros Hc He Hr. cbv zeta.
  pose proof (raw_wave_height_range earthquake region) as Hpos.
  assert (Hh : tsunami_height (estimate_tsunami earthquake region) = 0).
  { rewrite (estimate_tsunami_coastal _ _ Hc). cbv zeta. cbn [tsunami_height].
    destruct (Rgt_dec (elevation region) (raw_wave_height earthquake region));
      [exfalso; lra |].
    rewrite round1_unfold.
    rewrite PyFacts.round_half_even_le_half by lra. lra. }
  repeat split.
  - exact Hh.
  - rewrite (estimate_tsunami_coastal _ _ Hc). cbv zeta. cbn [inundation_rate].
    destruct (Rgt_dec (elevation region) (raw_wave_height earthquake region));
      [exfalso; lra |].
    destruct (Rgt_dec (raw_wave_height earthquake region) 5); [exfalso; lra |].
    destruct (Rgt_dec (raw_wave_height earthquake region) 2); [exfalso; lra |].
    destruct (Rgt_dec (raw_wave_height earthquake region) 0); [reflexivity | exfalso; lra].
  - unfold tsunami_casualties. rewrite Hh.
    destruct (Rgt_dec 0 0); [exfalso; lra | reflexivity].
Qed.

Lemma tiny_wave_ignored_witness :
  let e := Build_EarthquakeParameters 7.0 10 30 135 in
  let r := Build_RegionData "far shore" 60 135 1000000 400000 0.5 true 0 in
  let t := estimate_tsunami e r in
  tsunami_height t = 0
  /\ inundation_rate t = 0.05
  /\ tsunami_casualties t r = (0%Z, 0%Z).
Proof.
  cbv zeta.
  set (e := Build_EarthquakeParameters 7.0 10 30 135).
  set (r := Build_RegionData "far shore" 60 135 1000000 400000 0.5 true 0).
  assert (Hraw : 0 < raw_wave_height e r <= 0.05).
  { split; [apply raw_wave_height_range |].
    unfold raw_wave_height, epicentral_distance, base_height. simpl.
    destruct (Rge_dec 7.0 8.0); [exfalso; lra |].
    destruct (Rge_dec 7.0 7.5); [exfalso; lra |].
    rewrite calculate_distance_meridian by lra.
    unfold Py.radians. pose proof PI_coarse as Hpi.
    replace (- (6371 * ((60 - 30) * (PI / 180))) / 500)
      with (- (6371 * ((60 - 30) * (PI / 180)) / 500)) by lra.
    pose proof (exp_far (6371 * ((60 - 30) * (PI / 180)) / 500) ltac:(lra)).
    lra. }
  apply (tiny_wave_ignored e r).
  - reflexivity.
  - simpl. lra.
  - lra.
Defined.

(** ** More on casualties *)

Lemma estimate_tsunami_bounds (earthquake : EarthquakeParameters) (region : RegionData) :
  0 <= inundation_rate (estimate_tsunami earthquake region) <= 0.3
  /\ 0 <= arrival_time (estimate_tsunami earthquake region).
Proof.
  destruct (coastal region) eqn:Hc.
  - rewrite (estimate_tsunami_coastal _ _ Hc). cbv zeta.
    cbn [arrival_time inundation_rate].
    pose proof (epicentral_distance_nonneg earthquake region) as Hd.
    split.
    + repeat match goal with
             | |- context [Rgt_dec ?a ?b] => destruct (Rgt_dec a b)
             end; lra.
    + rewrite PyFacts.round_0_digits.
      assert (H0 : 0 <= epicentral_distance earthquake region / 12) by lra.
      apply round_half_even_mono in H0.
      rewrite (PyFacts.round_half_even_IZR 0) in H0.
      apply IZR_le in H0. exact H0.
  - rewrite (estimate_tsunami_inland _ _ Hc).
    cbn [arrival_time inundation_rate zero_tsunami]. lra.
Qed.

Lemma evacuation_rate_range (arrival : R) :
  0 <= arrival -> 0 <= Py.min 0.8 (arrival / 60) <= 0.8.
Proof.
  intros Ha. unfold Py.min.
  destruct (Rlt_dec (arrival / 60) 0.8); lra.
Qed.

(** X17: for a region with a non-negative population, the tsunami deaths and
    injuries that [estimate_casualties] adds for the result of
    [estimate_tsunami] are non-negative, and never exceed 3% resp. 6% of the
    population. *)
Theorem tsunami_casualties_bounded
    (earthquake : EarthquakeParameters) (region : RegionData) :
  (0 <= population region)%Z ->
  let c := tsunami_casualties (estimate_tsunami earthquake region) region in
  (0 <= fst c /\ 100 * fst c <= 3 * population region
   /\ 0 <= snd c /\ 100 * snd c <= 6 * population region)%Z.
Proof.
  intros Hp. cbv zeta.
  destruct (estimate_tsunami_bounds earthquake region) as [Hi Ha].
  unfold tsunami_casualties.
  set (t := estimate_tsunami earthquake region) in *.
  destruct (Rgt_dec (tsunami_height t) 0) as [_ | _]; [| cbn [fst snd]; lia].
  cbv zeta. cbn [fst snd].
  pose proof (evacuation_rate_range _ Ha) as He.
  set (ev := Py.min 0.8 (arrival_time t / 60)) in *.
  apply IZR_le in Hp.
  set (p := IZR (population region)) in *.
  assert (Hx : 0 <= p * inundation_rate t) by nra.
  pose proof (PyFacts.int_nonneg _ Hx) as Na. apply IZR_le in Na.
  pose proof (PyFacts.int_below _ Hx) as Ba.
  set (a := IZR (Py.int (p * inundation_rate t))) in *.
  assert (Hn : 0 <= a * (1 - ev) <= 0.3 * p) by nra.
  assert (Hd : 0 <= (if Rgt_dec (tsunami_height t) 2
                     then a * (1 - ev) * 0.1 else a * (1 - ev) * 0.02)
               <= 0.03 * p).
  { destruct (Rgt_dec (tsunami_height t) 2); lra. }
  assert (Hj : 0 <= a * (1 - ev) * 0.2 <= 0.06 * p) by lra.
  pose proof (PyFacts.int_nonneg _ (proj1 Hd)) as Nd.
  pose proof (PyFacts.int_below _ (proj1 Hd)) as Bd.
  pose proof (PyFacts.int_nonneg _ (proj1 Hj)) as Nj.
  pose proof (PyFacts.int_below _ (proj1 Hj)) as Bj.
  repeat split; try assumption.
  - apply le_IZR. rewrite !mult_IZR. fold p. lra.
  - apply le_IZR. rewrite !mult_IZR. fold p. lra.
Qed.

Lemma tsunami_casualties_bounded_witness :
  let c := tsunami_casualties (estimate_tsunami offshore_quake seaside_town)
             seaside_town in
  (0 <= fst c /\ 100 * fst c <= 3 * population seaside_town
   /\ 0 <= snd c /\ 100 * snd c <= 6 * population seaside_town)%Z.
Proof.
  apply (tsunami_casualties_bounded offshore_quake seaside_town).
  simpl. lia.
Defined.

(** The 30/70 split of a non-negative count loses at most one. *)
Lemma split_30_70 (n : Z) :
  (0 <= n)%Z ->
  (n - 1 <= Py.int (IZR n * 0.3) + Py.int (IZR n * 0.7) <= n)%Z.
Proof.
  intros Hn. apply IZR_le in Hn.
  assert (H3 : 0 <= IZR n * 0.3) by lra.
  assert (H7 : 0 <= IZR n * 0.7) by lra.
  pose proof (PyFacts.int_below _ H3) as B3.
  pose proof (PyFacts.int_below _ H7) as B7.
  pose proof (int_above _ H3) as A3.
  pose proof (int_above _ H7) as A7.
  split.
  - assert (n - 2 < Py.int (IZR n * 0.3) + Py.int (IZR n * 0.7))%Z; [| lia].
    apply lt_IZR. rewrite minus_IZR, plus_IZR. lra.
  - apply le_IZR. rewrite plus_IZR. lra.
Qed.

(** X18: the serious and minor injuries returned by [estimate_casualties]
    add up to the injury total (5% of the collapsed and severely damaged
    buildings, truncated, plus the tsunami injuries) or to one less: the
    30/70 split truncates each part. *)
Theorem injury_split_loses_at_most_one
    (intensity : R) (building_damage : BuildingDamage)
    (tsunami : Tsunami) (region : RegionData) :
  let total :=
    (Py.int (IZR (collapsed building_damage + severe_damage building_damage)
             * 0.05)
     + snd (tsunami_casualties tsunami region))%Z in
  let c := estimate_casualties intensity building_damage tsunami region in
  (0 <= total)%Z ->
  (total - 1 <= serious_injuries c + minor_injuries c <= total)%Z.
Proof.
  cbv zeta. intros Ht. unfold estimate_casualties.
  destruct (tsunami_casualties tsunami region) as [tsunami_deaths tsunami_injuries].
  cbn [snd] in Ht. cbn [serious_injuries minor_injuries].
  apply split_30_70. exact Ht.
Qed.

Lemma injury_split_loses_at_most_one_witness :
  let bd := {| collapsed := 23100; severe_damage := 36300;
               moderate_damage := 18150; undamaged := 54450 |} in
  let c := estimate_casualties 7 bd zero_tsunami kochi in
  (Py.int (IZR (collapsed bd + severe_damage bd) * 0.05)
   + snd (tsunami_casualties zero_tsunami kochi) - 1
   <= serious_injuries c + minor_injuries c
   <= Py.int (IZR (collapsed bd + severe_damage bd) * 0.05)
      + snd (tsunami_casualties zero_tsunami kochi))%Z.
Proof.
  cbv zeta.
  apply (injury_split_loses_at_most_one 7
           {| collapsed := 23100; severe_damage := 36300;
              moderate_damage := 18150; undamaged := 54450 |}
           zero_tsunami kochi).
  cbv zeta. unfold tsunami_casualties. cbn [tsunami_height zero_tsunami].
  destruct (Rgt_dec 0 0); [exfalso; lra |].
  cbn [snd collapsed severe_damage].
  assert (H : 0 <= IZR (23100 + 36300) * 0.05) by (simpl; lra).
  pose proof (PyFacts.int_nonneg _ H). lia.
Defined.

(** ** The rows of the table *)

Lemma format_0f_integer (x : R) (z : Z) :
  x = IZR z -> Py.format_0f x = NilEmpty.string_of_int (Z.to_int z).
Proof.
  intros ->. unfold Py.format_0f.
  rewrite PyFacts.round_half_even_IZR. reflexivity.
Qed.

(** X19: the outage columns of a row take five values only, by intensity
    tier: 80% and 90% from 6.5, 50% and 60% from 6, 20% and 30% from 5.5,
    5% and 5% from 5, and 0% and 0% below (停電世帯率 and 断水世帯率). *)
Theorem outage_columns (earthquake : EarthquakeParameters) (region : RegionData) :
  let i := calculate_seismic_intensity earthquake region in
  let row := simulate_region earthquake region in
  (6.5 <= i -> row_electricity row = "80%"%string /\ row_water row = "90%"%string)
  /\ (6 <= i < 6.5 ->
      row_electricity row = "50%"%string /\ row_water row = "60%"%string)
  /\ (5.5 <= i < 6 ->
      row_electricity row = "20%"%string /\ row_water row = "30%"%string)
  /\ (5 <= i < 5.5 ->
      row_electricity row = "5%"%string /\ row_water row = "5%"%string)
  /\ (i < 5 -> row_electricity row = "0%"%string /\ row_water row = "0%"%string).
Proof.
  cbv zeta. unfold simulate_region. cbv zeta.
  cbn [row_electricity row_water].
  set (i := calculate_seismic_intensity earthquake region).
  unfold estimate_infrastructure_damage.
  split; [| split; [| split; [| split]]]; intros Hi;
    (split; split_tiers; try (exfalso; lra);
     cbn [electricity_outage water_outage]);
    match goal with
    | |- (Py.format_0f (?q * 100) ++ _)%string = _ =>
        first
          [ rewrite (format_0f_integer (q * 100) 90) by lra
          | rewrite (format_0f_integer (q * 100) 80) by lra
          | rewrite (format_0f_integer (q * 100) 60) by lra
          | rewrite (format_0f_integer (q * 100) 50) by lra
          | rewrite (format_0f_integer (q * 100) 30) by lra
          | rewrite (format_0f_integer (q * 100) 20) by lra
          | rewrite (format_0f_integer (q * 100) 5) by lra
          | rewrite (format_0f_integer (q * 100) 0) by lra ]
    end; reflexivity.
Qed.

Lemma intensity_mono_magnitude (region : RegionData) (d la lo m1 m2 : R) :
  d <= 1000 / 3 ->
  m1 <= m2 ->
  calculate_seismic_intensity (Build_EarthquakeParameters m1 d la lo) region
  <= calculate_seismic_intensity (Build_EarthquakeParameters m2 d la lo) region.
Proof.
  intros Hd Hm.
  rewrite !calculate_seismic_intensity_unfold.
  unfold epicentral_distance.
  cbn [magnitude depth epicenter_lat epicenter_lon]. cbv zeta.
  set (dist := if Rlt_dec _ 1 then 1 else _).
  apply PyFacts.min_max_mono.
  apply Rmult_le_compat_r; lra.
Qed.

(** The tsunami branch of the casualty count against the tsunami result. *)
Lemma tsunami_casualties_mono (t1 t2 : Tsunami) (region : RegionData) :
  (0 <= population region)%Z ->
  tsunami_height t1 <= tsunami_height t2 ->
  0 <= inundation_rate t1 <= inundation_rate t2 ->
  arrival_time t1 = arrival_time t2 ->
  0 <= arrival_time t1 ->
  (0 <= fst (tsunami_casualties t1 region) <= fst (tsunami_casualties t2 region)
   /\ 0 <= snd (tsunami_casualties t1 region)
        <= snd (tsunami_casualties t2 region))%Z.
Proof.
  intros Hp Hh Hi Ea Ha.
  assert (Hnn : forall t, 0 <= inundation_rate t -> 0 <= arrival_time t ->
            (0 <= fst (tsunami_casualties t region)
             /\ 0 <= snd (tsunami_casualties t region))%Z).
  { intros t Hit Hat. unfold tsunami_casualties.
    destruct (Rgt_dec (tsunami_height t) 0); [| cbn [fst snd]; lia].
    cbv zeta. cbn [fst snd].
    pose proof (evacuation_rate_range _ Hat) as He.
    set (ev := Py.min 0.8 (arrival_time t / 60)) in *.
    pose proof (IZR_le _ _ Hp) as Hp'.
    assert (Hx : 0 <= IZR (population region) * inundation_rate t) by nra.
    pose proof (IZR_le _ _ (PyFacts.int_nonneg _ Hx)) as Na.
    set (a := IZR (Py.int (IZR (population region) * inundation_rate t))) in *.
    assert (Hn : 0 <= a * (1 - ev)) by nra.
    split; apply PyFacts.int_nonneg;
      [destruct (Rgt_dec (tsunami_height t) 2) |]; lra. }
  destruct (Hnn t1 ltac:(lra) Ha) as [N1 N1'].
  destruct (Hnn t2 ltac:(lra) ltac:(lra)) as [N2 N2'].
  unfold tsunami_casualties in *.
  destruct (Rgt_dec (tsunami_height t1) 0) as [H1 | H1];
    [| cbn [fst snd] in *; lia].
  destruct (Rgt_dec (tsunami_height t2) 0) as [_ | H2]; [| exfalso; lra].
  cbv zeta in *. cbn [fst snd] in *. rewrite <- Ea.
  pose proof (evacuation_rate_range _ Ha) as He.
  set (ev := Py.min 0.8 (arrival_time t1 / 60)) in *.
  pose proof (IZR_le _ _ Hp) as Hp'.
  set (p := IZR (population region)) in *.
  assert (Hx1 : 0 <= p * inundation_rate t1) by nra.
  assert (Hx12 : p * inundation_rate t1 <= p * inundation_rate t2) by nra.
  pose proof (IZR_le _ _ (PyFacts.int_nonneg _ Hx1)) as Na1.
  pose proof (IZR_le _ _ (int_mono _ _ Hx12)) as La.
  set (a1 := IZR (Py.int (p * inundation_rate t1))) in *.
  set (a2 := IZR (Py.int (p * inundation_rate t2))) in *.
  assert (Hn : 0 <= a1 * (1 - ev) <= a2 * (1 - ev)) by nra.
  repeat split; try assumption.
  - apply int_mono.
    destruct (Rgt_dec (tsunami_height t1) 2);
      destruct (Rgt_dec (tsunami_height t2) 2); lra.
  - apply int_mono. lra.
Qed.

(** A row against the magnitude, all other inputs fixed. *)
Lemma simulate_region_mono (region : RegionData) (d la lo m1 m2 : R) :
  (0 <= population region)%Z ->
  (0 <= buildings region)%Z ->
  0 <= wooden_ratio region <= 1 ->
  d <= 1000 / 3 ->
  m1 <= m2 ->
  let row1 := simulate_region (Build_EarthquakeParameters m1 d la lo) region in
  let row2 := simulate_region (Build_EarthquakeParameters m2 d la lo) region in
  row_intensity row1 <= row_intensity row2
  /\ (row_collapsed row1 <= row_collapsed row2)%Z
  /\ (row_severe row1 <= row_severe row2)%Z
  /\ row_tsunami_height row1 <= row_tsunami_height row2
  /\ row_arrival_time row1 = row_arrival_time row2
  /\ (row_deaths row1 <= row_deaths row2)%Z
  /\ (row_injured row1 <= row_injured row2)%Z
  /\ row_economic_loss row1 <= row_economic_loss row2.
Proof.
  intros Hp Hb Hw Hd Hm. cbv zeta.
  set (e1 := Build_EarthquakeParameters m1 d la lo).
  set (e2 := Build_EarthquakeParameters m2 d la lo).
  pose proof (intensity_mono_magnitude region d la lo m1 m2 Hd Hm) as Hi.
  fold e1 e2 in Hi.
  pose proof (estimate_building_damage_mono _ _ region Hb Hw Hi) as Hdm.
  cbv zeta in Hdm. destruct Hdm as (Hc & Hs & Hmo & _).
  pose proof (tsunami_mono_magnitude region d la lo m1 m2 Hm) as Ht.
  cbv zeta in Ht. fold e1 e2 in Ht. destruct Ht as (Th & Ti & Ta & Ti0 & Ta0).
  pose proof (tsunami_casualties_mono _ _ region Hp Th (conj Ti0 Ti) Ta Ta0)
    as [[_ Cd] [_ Cj]].
  unfold simulate_region. cbv zeta.
  cbn [row_intensity row_collapsed row_severe row_tsunami_height
       row_arrival_time row_deaths row_injured row_economic_loss].
  set (i1 := calculate_seismic_intensity e1 region) in *.
  set (i2 := calculate_seismic_intensity e2 region) in *.
  set (b1 := estimate_building_damage i1 region) in *.
  set (b2 := estimate_building_damage i2 region) in *.
  set (t1 := estimate_tsunami e1 region) in *.
  set (t2 := estimate_tsunami e2 region) in *.
  assert (Hbi : (Py.int (IZR (collapsed b1 + severe_damage b1) * 0.05)
                 <= Py.int (IZR (collapsed b2 + severe_damage b2) * 0.05))%Z).
  { apply int_mono.
    assert (H : (collapsed b1 + severe_damage b1
                 <= collapsed b2 + severe_damage b2)%Z) by lia.
    apply IZR_le in H. lra. }
  assert (Hbd : (Py.int (IZR (collapsed b1) * 0.01)
                 <= Py.int (IZR (collapsed b2) * 0.01))%Z).
  { apply int_mono. apply IZR_le in Hc. lra. }
  unfold estimate_casualties.
  destruct (tsunami_casualties t1 region) as [td1 tj1].
  destruct (tsunami_casualties t2 region) as [td2 tj2].
  cbn [fst snd] in Cd, Cj.
  cbn [deaths serious_injuries minor_injuries].
  repeat split.
  - apply round_mono. exact Hi.
  - exact Hc.
  - exact Hs.
  - exact Th.
  - exact Ta.
  - lia.
  - assert (HT : (Py.int (IZR (collapsed b1 + severe_damage b1) * 0.05) + tj1
                  <= Py.int (IZR (collapsed b2 + severe_damage b2) * 0.05) + tj2)%Z)
      by lia.
    apply IZR_le in HT.
    assert (L3 : (Py.int (IZR (Py.int (IZR (collapsed b1 + severe_damage b1) * 0.05)
                               + tj1) * 0.3)
                  <= Py.int (IZR (Py.int (IZR (collapsed b2 + severe_damage b2) * 0.05)
                                  + tj2) * 0.3))%Z)
      by (apply int_mono; lra).
    assert (L7 : (Py.int (IZR (Py.int (IZR (collapsed b1 + severe_damage b1) * 0.05)
                               + tj1) * 0.7)
                  <= Py.int (IZR (Py.int (IZR (collapsed b2 + severe_damage b2) * 0.05)
                                  + tj2) * 0.7))%Z)
      by (apply int_mono; lra).
    lia.
  - apply round_mono.
    assert (H : (collapsed b1 * 20000000 + severe_damage b1 * 10000000
                 + moderate_damage b1 * 2000000
                 <= collapsed b2 * 20000000 + severe_damage b2 * 10000000
                    + moderate_damage b2 * 2000000)%Z) by lia.
    apply IZR_le in H.
    apply Rmult_le_compat_r; [lra | exact H].
Qed.

(** X20: a larger earthquake never reports less: with depth (at most 1000/3
    km), epicenter and region fixed, and a region with non-negative
    population and buildings and a wooden ratio in [[0,1]], raising the
    magnitude never lowers the intensity, the collapsed and severely damaged
    buildings, the tsunami height, the deaths, the injured or the economic
    loss shown in the region's row, and leaves the arrival time unchanged. *)
Theorem row_monotone_in_magnitude (region : RegionData) (d la lo m1 m2 : R) :
  (0 <= population region)%Z ->
  (0 <= buildings region)%Z ->
  0 <= wooden_ratio region <= 1 ->
  d <= 1000 / 3 ->
  m1 <= m2 ->
  let row1 := simulate_region (Build_EarthquakeParameters m1 d la lo) region in
  let row2 := simulate_region (Build_EarthquakeParameters m2 d la lo) region in
  row_intensity row1 <= row_intensity row2
  /\ (row_collapsed row1 <= row_collapsed row2)%Z
  /\ (row_severe row1 <= row_severe row2)%Z
  /\ row_tsunami_height row1 <= row_tsunami_height row2
  /\ row_arrival_time row1 = row_arrival_time row2
  /\ (row_deaths row1 <= row_deaths row2)%Z
  /\ (row_injured row1 <= row_injured row2)%Z
  /\ row_economic_loss row1 <= row_economic_loss row2.
Proof.
  exact (simulate_region_mono region d la lo m1 m2).
Qed.

Lemma row_monotone_in_magnitude_witness :
  let row1 := simulate_region (Build_EarthquakeParameters 7.0 10 33 136) kochi in
  let row2 := simulate_region (Build_EarthquakeParameters 8.7 10 33 136) kochi in
  row_intensity row1 <= row_intensity row2
  /\ (row_collapsed row1 <= row_collapsed row2)%Z
  /\ (row_severe row1 <= row_severe row2)%Z
  /\ row_tsunami_height row1 <= row_tsunami_height row2
  /\ row_arrival_time row1 = row_arrival_time row2
  /\ (row_deaths row1 <= row_deaths row2)%Z
  /\ (row_injured row1 <= row_injured row2)%Z
  /\ row_economic_loss row1 <= row_economic_loss row2.
Proof.
  apply (row_monotone_in_magnitude kochi 10 33 136 7.0 8.7).
  - simpl. lia.
  - simpl. lia.
  - simpl. lra.
  - lra.
  - lra.
Defined.

(** ** The dashboard *)

(** X21: the tsunami tab of the dashboard charts exactly the rows of the
    coastal regions whose elevation does not exceed a raw wave height above
    0.05 m; rows of inland regions and of regions protected by their
    elevation are filtered out. *)
Theorem tsunami_tab_rows
    (earthquake : EarthquakeParameters) (self : NankaiEarthquakeSimulator)
    (row : Row) :
  In row (tsunami_data (fst (simulate earthquake self)))
  <-> exists region,
        In region (regions self)
        /\ row = simulate_region earthquake region
        /\ coastal region = true
        /\ elevation region <= raw_wave_height earthquake region
        /\ 0.05 < raw_wave_height earthquake region.
Proof.
  rewrite simulate_run. cbn [fst]. unfold tsunami_data.
  rewrite filter_In, in_map_iff. split.
  - intros [[region [Er Hin]] Hpos]. subst row.
    exists region. split; [exact Hin |]. split; [reflexivity |].
    apply estimate_tsunami_height_pos.
    unfold simulate_region in Hpos. cbv zeta in Hpos.
    cbn [row_tsunami_height] in Hpos.
    destruct (Rgt_dec (tsunami_height (estimate_tsunami earthquake region)) 0);
      [assumption | discriminate].
  - intros [region (Hin & Er & Hcond)]. subst row. split.
    + exists region. split; [reflexivity | exact Hin].
    + apply estimate_tsunami_height_pos in Hcond.
      unfold simulate_region. cbv zeta. cbn [row_tsunami_height].
      destruct (Rgt_dec (tsunami_height (estimate_tsunami earthquake region)) 0);
        [reflexivity | contradiction].
Qed.

Lemma column_sum_mono (col1 col2 : RegionData -> Z) (rs : list RegionData) :
  Forall (fun region => (col1 region <= col2 region)%Z) rs ->
  (fold_right (fun region total => col1 region + total) 0 rs
   <= fold_right (fun region total => col2 region + total) 0 rs)%Z.
Proof.
  induction 1 as [| region rs Hle _ IH]; cbn; lia.
Qed.

Lemma column_sum_map (col : Row -> Z) (f : RegionData -> Row) (rs : list RegionData) :
  column_sum col (map f rs)
  = fold_right (fun region total => (col (f region) + total)%Z) 0%Z rs.
Proof.
  unfold column_sum. induction rs as [| region rs IH]; cbn; [| rewrite IH];
    reflexivity.
Qed.

(** X22: the headline totals of the dashboard (deaths, collapsed buildings,
    injured) never go down when only the magnitude is raised, for a catalog
    whose regions have non-negative population and buildings and a wooden
    ratio in [[0,1]], at a depth of at most 1000/3 km. *)
Theorem headline_totals_monotone
    (self : NankaiEarthquakeSimulator) (d la lo m1 m2 : R) :
  Forall (fun region =>
            (0 <= population region)%Z /\ (0 <= buildings region)%Z
            /\ 0 <= wooden_ratio region <= 1) (regions self) ->
  d <= 1000 / 3 ->
  m1 <= m2 ->
  let results1 := fst (simulate (Build_EarthquakeParameters m1 d la lo) self) in
  let results2 := fst (simulate (Build_EarthquakeParameters m2 d la lo) self) in
  (column_sum row_deaths results1 <= column_sum row_deaths results2
   /\ column_sum row_collapsed results1 <= column_sum row_collapsed results2
   /\ column_sum row_injured results1 <= column_sum row_injured results2)%Z.
Proof.
  intros Hv Hd Hm. cbv zeta.
  rewrite !simulate_run. cbn [fst]. rewrite !column_sum_map.
  repeat split; apply column_sum_mono;
    (eapply Forall_impl; [| exact Hv]);
    intros region (Hp & Hb & Hw);
    pose proof (simulate_region_mono region d la lo m1 m2 Hp Hb Hw Hd Hm) as H;
    cbv zeta in H; tauto.
Qed.

Lemma headline_totals_monotone_witness :
  let results1 := fst (simulate (Build_EarthquakeParameters 7.0 10 33 136) init) in
  let results2 := fst (simulate (Build_EarthquakeParameters 8.7 10 33 136) init) in
  (column_sum row_deaths results1 <= column_sum row_deaths results2
   /\ column_sum row_collapsed results1 <= column_sum row_collapsed results2
   /\ column_sum row_injured results1 <= column_sum row_injured results2)%Z.
Proof.
  apply (headline_totals_monotone init 10 33 136 7.0 8.7).
  - repeat constructor; simpl; lra || lia.
  - lra.
  - lra.
Defined.
